(** * NZXT Grid V3 / Smart Device V1 HID driver: wire codec, channel cache,
      hwmon callbacks and the probe handshake of [nzxt_grid.c]. *)

From Stdlib Require Import ZArith List Lia Bool String.
From stdpp Require Import base list.

Local Open Scope Z_scope.

(** ** Machine integers

    C integers are modelled as [Z]; a cast to a narrower type is written out
    as the wrap-around it performs. *)

Definition uint8_t (z : Z) : Z := z mod 2 ^ 8.

Definition wrap_signed (w : Z) (z : Z) : Z :=
  (z + 2 ^ (w - 1)) mod 2 ^ w - 2 ^ (w - 1).

Definition int (z : Z) : Z := wrap_signed 32 z.
Definition long (z : Z) : Z := wrap_signed 64 z.

(** A buffer handed over by the HID transport is a sequence of octets. *)
Definition is_u8 (b : Z) : Prop := 0 <= b < 256.
Definition bytes (data : list Z) : Prop := Forall is_u8 data.

(** ** Constants of the driver *)

Definition NZXT_GRID_MAX_CHANNELS : Z := 6.
Definition NZXT_GRID_OUTPUT_REPORT_SIZE : Z := 65.

Definition nzxt_grid_report_id_command : Z := 2.


Definition nzxt_grid_command_detect_fans : Z := 0x5c.
Definition nzxt_grid_command_start_reporting : Z := 0x5d.
Definition nzxt_grid_command_set_fan_speed : Z := 0x4d.

(** [enum nzxt_grid_fan_type]: a C enum is an integer, and the driver casts
    the raw two-bit field to it. *)
Definition nzxt_grid_fan_none : Z := 0.
Definition nzxt_grid_fan_dc : Z := 1.
Definition nzxt_grid_fan_pwm : Z := 2.

(** ** Packed structures

    A packed struct is its list of members with their sizes; offsets and the
    total size follow from the declaration order. *)

Module Layout.

Definition t := list (string * nat).

Definition sizeof (l : t) : nat := foldr (fun f acc => (snd f + acc)%nat) 0%nat l.

Fixpoint offsetof (l : t) (name : string) : nat :=
  match l with
  | [] => 0%nat
  | (n, sz) :: rest =>
      if String.eqb n name then 0%nat else (sz + offsetof rest name)%nat
  end.

End Layout.

Definition nzxt_grid_status_report : Layout.t :=
  [ ("report_id", 1); ("unknown1", 2); ("rpm", 2); ("unknown2", 2);
    ("in_volt", 1); ("in_centivolt", 1); ("curr_amp", 1);
    ("curr_centiamp", 1); ("firmware_version_major", 1);
    ("firmware_version_minor", 2); ("firmware_version_patch", 1);
    ("channel_index_and_fan_type", 1); ("unknown4", 5) ]%string%nat.

Definition nzxt_grid_command_output_report : Layout.t :=
  [ ("report_id", 1); ("command", 1) ]%string%nat.

Definition nzxt_grid_command_set_fan_speed_output_report : Layout.t :=
  [ ("report_id", 1); ("command", 1); ("channel_index", 1); ("unknown1", 1);
    ("fan_speed_percent", 1) ]%string%nat.

(** Reading a [uint8_t] member of the status report through the cast pointer
    [status_report = (void * )data]. *)
Definition member (data : list Z) (name : string) : Z :=
  nth (Layout.offsetof nzxt_grid_status_report name) data 0.

(** Reading a [__be16] member: [be16_to_cpup] of the two octets. *)
Definition be16_to_cpup (data : list Z) (name : string) : Z :=
  let off := Layout.offsetof nzxt_grid_status_report name in
  Z.lor (Z.shiftl (nth off data 0) 8) (nth (S off) data 0).

Definition nzxt_grid_get_channel_index (report : list Z) : Z :=
  uint8_t (Z.shiftr (member report "channel_index_and_fan_type") 4).

Definition nzxt_grid_get_fan_type (report : list Z) : Z :=
  uint8_t (Z.land (member report "channel_index_and_fan_type") 0x3).

(** ** Channel cache *)

Record nzxt_grid_channel_status := {
  type : Z;
  speed_rpm : Z;
  in_millivolt : Z;
  curr_milliamp : Z;
}.

Record nzxt_grid_device := {
  hid : Z;
  hwmon : Z;
  channel : list nzxt_grid_channel_status;
}.

(** [devm_kzalloc] hands out zeroed memory. *)
Definition zero_status : nzxt_grid_channel_status :=
  {| type := 0; speed_rpm := 0; in_millivolt := 0; curr_milliamp := 0 |}.

Definition zero_device : nzxt_grid_device :=
  {| hid := 0; hwmon := 0;
     channel := replicate (Z.to_nat NZXT_GRID_MAX_CHANNELS) zero_status |}.

Definition set_channel (grid : nzxt_grid_device) (i : nat)
    (st : nzxt_grid_channel_status) : nzxt_grid_device :=
  {| hid := hid grid; hwmon := hwmon grid; channel := <[i := st]> (channel grid) |}.

(** The slot array has [NZXT_GRID_MAX_CHANNELS] entries. *)
Definition well_formed (grid : nzxt_grid_device) : Prop :=
  length (channel grid) = Z.to_nat NZXT_GRID_MAX_CHANNELS.

(** ** Inbound path: [nzxt_grid_raw_event] *)

(** The four assignments made to [channel_status] under the write lock. *)
Definition status_of_report (status_report : list Z) : nzxt_grid_channel_status :=
  let fan_type := nzxt_grid_get_fan_type status_report in
  {| type :=
       if (fan_type =? nzxt_grid_fan_dc) || (fan_type =? nzxt_grid_fan_pwm)
       then fan_type
       else nzxt_grid_fan_none;
     speed_rpm := be16_to_cpup status_report "rpm";
     in_millivolt :=
       long (long (member status_report "in_volt" * 1000)
             + long (member status_report "in_centivolt" * 10));
     curr_milliamp :=
       long (long (member status_report "curr_amp" * 1000)
             + long (member status_report "curr_centiamp" * 10)) |}.

Definition nzxt_grid_raw_event (grid : nzxt_grid_device) (data : list Z)
    (size : Z) : nzxt_grid_device * Z :=
  if negb (size =? Z.of_nat (Layout.sizeof nzxt_grid_status_report)) then (grid, 0)
  else
    let channel_index := nzxt_grid_get_channel_index data in
    if NZXT_GRID_MAX_CHANNELS <=? channel_index then (grid, 0)
    else (set_channel grid (Z.to_nat channel_index) (status_of_report data), 0).

(** The transport delivers a buffer together with its length. *)
Definition on_raw_event (grid : nzxt_grid_device) (data : list Z)
    : nzxt_grid_device * Z :=
  nzxt_grid_raw_event grid data (Z.of_nat (length data)).

(** ** Duty mapping *)

Definition nzxt_grid_pwm_to_percent (hwmon_value : Z) : Z :=
  if hwmon_value <? 0 then 0
  else if 255 <=? hwmon_value then 100
  else uint8_t (Z.quot (long (hwmon_value * 100)) 255).

(** ** The kernel interface

    The driver talks to the HID core, the allocator and the hwmon core.  A
    driver routine is a tree of such calls: each call is answered with an
    integer (a status, a pointer, or nothing of interest for a [void]
    function) and the routine continues from the answer. *)

Inductive hwmon_chip_info :=
| nzxt_grid_v3_chip_info
| nzxt_smart_device_v1_chip_info.

Inductive device_config :=
| nzxt_grid_device_config_grid_v3
| nzxt_grid_device_config_smart_device_v1.

Definition nzxt_grid_device_configs (driver_data : device_config) : hwmon_chip_info :=
  match driver_data with
  | nzxt_grid_device_config_grid_v3 => nzxt_grid_v3_chip_info
  | nzxt_grid_device_config_smart_device_v1 => nzxt_smart_device_v1_chip_info
  end.

(** Number of entries each [HWMON_CHANNEL_INFO] row of the chip lists. *)
Definition exposed_channels (chip : hwmon_chip_info) : nat :=
  match chip with
  | nzxt_grid_v3_chip_info => 6
  | nzxt_smart_device_v1_chip_info => 3
  end.

Inductive call :=
| devm_kzalloc
| kzalloc (size : Z)
| kfree (ptr : Z)
| hid_parse
| hid_hw_start (connect_mask : Z)
| hid_hw_open
| hid_device_io_start
| hid_hw_output_report (buf : list Z) (len : Z)
| hwmon_device_register_with_info (name : string) (chip : hwmon_chip_info)
| hwmon_device_unregister (dev : Z)
| hid_hw_close
| hid_hw_stop.

Inductive kprog (A : Type) : Type :=
| Ret (a : A)
| Do (c : call) (k : Z -> kprog A).

Arguments Ret {A} a.
Arguments Do {A} c k.

Fixpoint kbind {A B} (p : kprog A) (f : A -> kprog B) : kprog B :=
  match p with
  | Ret a => f a
  | Do c k => Do c (fun r => kbind (k r) f)
  end.

Definition extcall (c : call) : kprog Z := Do c Ret.

Declare Scope kprog_scope.
Delimit Scope kprog_scope with kprog.
Notation "x <- p ;; q" := (kbind p (fun x => q))
  (at level 100, p at next level, right associativity) : kprog_scope.
Notation "p ;;; q" := (kbind p (fun _ => q))
  (at level 100, q at level 200, right associativity) : kprog_scope.

(** The surroundings answer the [n]-th call of a run. *)
Definition oracle := nat -> call -> Z.

Definition event : Type := call * Z.

(** Running a routine yields the calls it made, with their answers, in
    order, and its result. *)
Fixpoint run {A} (p : kprog A) (env : oracle) (n : nat) : list event * A :=
  match p with
  | Ret a => ([], a)
  | Do c k =>
      let r := env n c in
      let '(tr, a) := run (k r) env (S n) in
      ((c, r) :: tr, a)
  end.

(** The output reports the transport saw, oldest first. *)
Definition submissions (tr : list event) : list (list Z) :=
  omap (fun e => match fst e with
                 | hid_hw_output_report buf _ => Some buf
                 | _ => None
                 end) tr.

(** [memcpy(dst, src, n)] on buffers held as lists. *)
Definition memcpy (dst src : list Z) (n : nat) : list Z :=
  take n src ++ drop n dst.

Inductive hwmon_sensor_types :=
| hwmon_chip | hwmon_temp | hwmon_in | hwmon_curr | hwmon_power
| hwmon_energy | hwmon_humidity | hwmon_fan | hwmon_pwm | hwmon_intrusion.

(** ** Values of the kernel headers

    What [linux/hwmon.h], [errno-base.h], [linux/hid.h] and [linux/err.h]
    (64-bit) give for the names the driver uses.  The driver below is stated
    for arbitrary values; these instantiate it. *)

Module Linux.

Definition hwmon_fan_input : Z := 1.
Definition hwmon_pwm_input : Z := 0.
Definition hwmon_pwm_mode : Z := 2.
Definition hwmon_in_input : Z := 1.
Definition hwmon_curr_input : Z := 1.
Definition EINVAL : Z := 22.
Definition ENOMEM : Z := 12.
Definition HID_CONNECT_HIDRAW : Z := 4.
Definition MAX_ERRNO : Z := 4095.

(** A pointer is an unsigned 64-bit number; the top [MAX_ERRNO] values
    encode errors. *)
Definition IS_ERR (ptr : Z) : bool :=
  (2 ^ 64 - MAX_ERRNO <=? ptr) && (ptr <? 2 ^ 64).

Definition PTR_ERR (ptr : Z) : Z := long ptr.

Definition S_IWUSR : Z := 128.
Definition S_IRUGO : Z := 292.
Definition HWMON_F_INPUT : Z := Z.shiftl 1 hwmon_fan_input.
Definition HWMON_PWM_INPUT : Z := Z.shiftl 1 hwmon_pwm_input.
Definition HWMON_PWM_MODE : Z := Z.shiftl 1 hwmon_pwm_mode.
Definition HWMON_I_INPUT : Z := Z.shiftl 1 hwmon_in_input.
Definition HWMON_C_INPUT : Z := Z.shiftl 1 hwmon_curr_input.

End Linux.

(** ** Sample traffic *)

Module Sample.

(** Channel 1, PWM fan, 1500 rpm, 12.10 V, 1.50 A. *)
Definition report : list Z :=
  [ 0x04; 0x00; 0x00; 0x05; 0xDC; 0x00; 0x00; 0x0C; 0x0A; 0x01; 0x32;
    0x00; 0x00; 0x00; 0x00; 0x12; 0x00; 0x00; 0x00; 0x00; 0x00 ].

(** The same measurements with channel index 6. *)
Definition report_channel_6 : list Z :=
  [ 0x04; 0x00; 0x00; 0x05; 0xDC; 0x00; 0x00; 0x0C; 0x0A; 0x01; 0x32;
    0x00; 0x00; 0x00; 0x00; 0x62; 0x00; 0x00; 0x00; 0x00; 0x00 ].

(** The same measurements under report id 0. *)
Definition report_id_0 : list Z :=
  [ 0x00; 0x00; 0x00; 0x05; 0xDC; 0x00; 0x00; 0x0C; 0x0A; 0x01; 0x32;
    0x00; 0x00; 0x00; 0x00; 0x12; 0x00; 0x00; 0x00; 0x00; 0x00 ].

(** Surroundings in which every call succeeds. *)
Definition env_ok : oracle :=
  fun _ c =>
    match c with
    | devm_kzalloc => 0x1000
    | kzalloc _ => 0x2000
    | hid_hw_output_report _ len => len
    | hwmon_device_register_with_info _ _ => 0x3000
    | _ => 0
    end.

(** The same, except that the transport refuses the second submission
    (the tenth call of an attach) with -5. *)
Definition env_submit_fails : oracle :=
  fun n c => if (n =? 9)%nat then -5 else env_ok n c.

End Sample.

Section Driver.

(** Attribute numbers of [linux/hwmon.h], error numbers of
    [errno-base.h], the connect mask of [linux/hid.h] and the error-pointer
    macros of [linux/err.h] belong to the kernel headers; the driver is
    modelled for any values of them. *)
Variables hwmon_fan_input hwmon_pwm_input hwmon_pwm_mode : Z.
Variables hwmon_in_input hwmon_curr_input : Z.
Variables EINVAL ENOMEM : Z.
Variable HID_CONNECT_HIDRAW : Z.
Variable IS_ERR : Z -> bool.
Variable PTR_ERR : Z -> Z.

(** What the driver relies on: [ENOMEM] is an error number, and an error
    pointer carries a negated error number of at most [MAX_ERRNO]. *)
Hypothesis ENOMEM_nonzero : ENOMEM <> 0.
Hypothesis PTR_ERR_range : forall p, IS_ERR p = true -> -4095 <= PTR_ERR p < 0.

Local Open Scope kprog_scope.

(** *** Sensor reads: a result code together with the cell [*val] *)

Definition nzxt_grid_hwmon_read_fan (channel_status : nzxt_grid_channel_status)
    (attr val : Z) : Z * Z :=
  if attr =? hwmon_fan_input then (0, speed_rpm channel_status)
  else (- EINVAL, val).

Definition nzxt_grid_hwmon_read_pwm (channel_status : nzxt_grid_channel_status)
    (attr val : Z) : Z * Z :=
  if attr =? hwmon_pwm_mode
  then (0, if type channel_status =? nzxt_grid_fan_pwm then 1 else 0)
  else (- EINVAL, val).

Definition nzxt_grid_hwmon_read_in (channel_status : nzxt_grid_channel_status)
    (attr val : Z) : Z * Z :=
  if attr =? hwmon_in_input then (0, in_millivolt channel_status)
  else (- EINVAL, val).

Definition nzxt_grid_hwmon_read_curr (channel_status : nzxt_grid_channel_status)
    (attr val : Z) : Z * Z :=
  if attr =? hwmon_curr_input then (0, curr_milliamp channel_status)
  else (- EINVAL, val).

(** [&grid->channel[channel]]: defined only inside the array. *)
Definition channel_at (grid : nzxt_grid_device) (index : Z)
    : option nzxt_grid_channel_status :=
  if index <? 0 then None else channel grid !! Z.to_nat index.

Definition nzxt_grid_hwmon_read (grid : nzxt_grid_device)
    (type : hwmon_sensor_types) (attr index val : Z) : option (Z * Z) :=
  channel_status ← channel_at grid index;
  Some match type with
       | hwmon_fan => nzxt_grid_hwmon_read_fan channel_status attr val
       | hwmon_pwm => nzxt_grid_hwmon_read_pwm channel_status attr val
       | hwmon_in => nzxt_grid_hwmon_read_in channel_status attr val
       | hwmon_curr => nzxt_grid_hwmon_read_curr channel_status attr val
       | _ => (- EINVAL, val)
       end.

(** *** Outbound path *)

(** The buffer after [kzalloc] and [memcpy(buffer, data, size)]. *)
Definition output_buffer (data : list Z) (size : nat) : list Z :=
  memcpy (replicate (Z.to_nat NZXT_GRID_OUTPUT_REPORT_SIZE) 0) data size.

Definition nzxt_grid_send_output_report (data : list Z) (size : nat) : kprog Z :=
  buffer <- extcall (kzalloc NZXT_GRID_OUTPUT_REPORT_SIZE) ;;
  if buffer =? 0 then Ret (- ENOMEM)
  else
    ret <- extcall (hid_hw_output_report (output_buffer data size)
                      NZXT_GRID_OUTPUT_REPORT_SIZE) ;;
    extcall (kfree buffer) ;;;
    Ret (if ret <? 0 then ret else 0).

Definition nzxt_grid_hwmon_write_pwm_input (channel val : Z) : kprog Z :=
  let report :=
    [ uint8_t nzxt_grid_report_id_command;
      uint8_t nzxt_grid_command_set_fan_speed;
      uint8_t channel;
      0;
      nzxt_grid_pwm_to_percent val ] in
  nzxt_grid_send_output_report report
    (Layout.sizeof nzxt_grid_command_set_fan_speed_output_report).

Definition nzxt_grid_hwmon_write_pwm (attr channel val : Z) : kprog Z :=
  if attr =? hwmon_pwm_input then nzxt_grid_hwmon_write_pwm_input channel val
  else Ret (- EINVAL).

Definition nzxt_grid_hwmon_write (type : hwmon_sensor_types)
    (attr channel val : Z) : kprog Z :=
  match type with
  | hwmon_pwm => nzxt_grid_hwmon_write_pwm attr channel val
  | _ => Ret (- EINVAL)
  end.

(** *** Attach and detach *)

Definition nzxt_grid_detect_fans : kprog Z :=
  nzxt_grid_send_output_report
    [ uint8_t nzxt_grid_report_id_command; uint8_t nzxt_grid_command_detect_fans ]
    (Layout.sizeof nzxt_grid_command_output_report).

Definition nzxt_grid_start_reporting : kprog Z :=
  nzxt_grid_send_output_report
    [ uint8_t nzxt_grid_report_id_command;
      uint8_t nzxt_grid_command_start_reporting ]
    (Layout.sizeof nzxt_grid_command_output_report).

Definition out_hw_stop (ret : Z) : kprog Z :=
  extcall hid_hw_stop ;;; Ret ret.

Definition out_hw_close (ret : Z) : kprog Z :=
  extcall hid_hw_close ;;; out_hw_stop ret.

Definition nzxt_grid_probe (hdev : Z) (driver_data : device_config)
    : kprog (Z * option nzxt_grid_device) :=
  grid <- extcall devm_kzalloc ;;
  if grid =? 0 then Ret (- ENOMEM, None)
  else
    let dev := {| hid := hdev; hwmon := 0; channel := channel zero_device |} in
    ret <- extcall hid_parse ;;
    if negb (ret =? 0) then Ret (ret, Some dev)
    else
      ret <- extcall (hid_hw_start HID_CONNECT_HIDRAW) ;;
      if negb (ret =? 0) then Ret (ret, Some dev)
      else
        ret <- extcall hid_hw_open ;;
        if negb (ret =? 0) then (ret <- out_hw_stop ret ;; Ret (ret, Some dev))
        else
          extcall hid_device_io_start ;;;
          ret <- nzxt_grid_detect_fans ;;
          if negb (ret =? 0) then (ret <- out_hw_close ret ;; Ret (ret, Some dev))
          else
            ret <- nzxt_grid_start_reporting ;;
            if negb (ret =? 0)
            then (ret <- out_hw_close ret ;; Ret (ret, Some dev))
            else
              h <- extcall (hwmon_device_register_with_info "nzxtgrid"
                              (nzxt_grid_device_configs driver_data)) ;;
              let dev := {| hid := hdev; hwmon := h; channel := channel dev |} in
              if IS_ERR h
              then (ret <- out_hw_close (int (PTR_ERR h)) ;; Ret (ret, Some dev))
              else Ret (0, Some dev).

Definition nzxt_grid_remove (grid : nzxt_grid_device) : kprog unit :=
  extcall (hwmon_device_unregister (hwmon grid)) ;;;
  extcall hid_hw_close ;;;
  extcall hid_hw_stop ;;;
  Ret tt.

(** *** Vocabulary for the traces of [nzxt_grid_probe] *)

(** The call that undoes a step, for the steps that acquire something. *)
Definition release (e : event) : option call :=
  match e with
  | (hid_hw_start _, r) => if r =? 0 then Some hid_hw_stop else None
  | (hid_hw_open, r) => if r =? 0 then Some hid_hw_close else None
  | _ => None
  end.

Definition unwinding (done : list event) : list call :=
  rev (omap release done).

(** The calls made before the sensor surface is registered, if it is. *)
Fixpoint before_register (tr : list event) : option (list event) :=
  match tr with
  | [] => None
  | (hwmon_device_register_with_info _ _, _) :: _ => Some []
  | e :: tr => cons e <$> before_register tr
  end.

Definition is_release (c : call) : bool :=
  match c with
  | hid_hw_close | hid_hw_stop => true
  | _ => false
  end.

(** The answer by which each kernel call reports failure, as the driver
    tests it. *)
Definition step_failed (e : event) : bool :=
  match e with
  | (devm_kzalloc, r) | (kzalloc _, r) => r =? 0
  | (hid_parse, r) | (hid_hw_start _, r) | (hid_hw_open, r) => negb (r =? 0)
  | (hid_hw_output_report _ _, r) => r <? 0
  | (hwmon_device_register_with_info _ _, r) => IS_ERR r
  | _ => false
  end.

(** *** What the driver advertises *)

(** Permission bits of [linux/stat.h] and the per-channel configuration
    words of [linux/hwmon.h], again for any values. *)
Variables S_IWUSR S_IRUGO : Z.
Variables HWMON_F_INPUT HWMON_PWM_MODE HWMON_PWM_INPUT : Z.
Variables HWMON_I_INPUT HWMON_C_INPUT : Z.

Definition nzxt_grid_is_visible (type : hwmon_sensor_types) (attr channel : Z) : Z :=
  if (match type with hwmon_pwm => true | _ => false end)
     && (attr =? hwmon_pwm_input)
  then S_IWUSR
  else S_IRUGO.

(** A [HWMON_CHANNEL_INFO] row: the sensor type and one configuration word
    per channel. *)
Definition nzxt_grid_v3_channel_info : list (hwmon_sensor_types * list Z) :=
  [ (hwmon_fan, [ HWMON_F_INPUT; HWMON_F_INPUT; HWMON_F_INPUT;
                  HWMON_F_INPUT; HWMON_F_INPUT; HWMON_F_INPUT ]);
    (hwmon_pwm, [ Z.lor HWMON_PWM_MODE HWMON_PWM_INPUT;
                  Z.lor HWMON_PWM_MODE HWMON_PWM_INPUT;
                  Z.lor HWMON_PWM_MODE HWMON_PWM_INPUT;
                  Z.lor HWMON_PWM_MODE HWMON_PWM_INPUT;
                  Z.lor HWMON_PWM_MODE HWMON_PWM_INPUT;
                  Z.lor HWMON_PWM_MODE HWMON_PWM_INPUT ]);
    (hwmon_in, [ HWMON_I_INPUT; HWMON_I_INPUT; HWMON_I_INPUT;
                 HWMON_I_INPUT; HWMON_I_INPUT; HWMON_I_INPUT ]);
    (hwmon_curr, [ HWMON_C_INPUT; HWMON_C_INPUT; HWMON_C_INPUT;
                   HWMON_C_INPUT; HWMON_C_INPUT; HWMON_C_INPUT ]) ].

Definition nzxt_smart_device_v1_channel_info : list (hwmon_sensor_types * list Z) :=
  [ (hwmon_fan, [ HWMON_F_INPUT; HWMON_F_INPUT; HWMON_F_INPUT ]);
    (hwmon_pwm, [ Z.lor HWMON_PWM_MODE HWMON_PWM_INPUT;
                  Z.lor HWMON_PWM_MODE HWMON_PWM_INPUT;
                  Z.lor HWMON_PWM_MODE HWMON_PWM_INPUT ]);
    (hwmon_in, [ HWMON_I_INPUT; HWMON_I_INPUT; HWMON_I_INPUT ]);
    (hwmon_curr, [ HWMON_C_INPUT; HWMON_C_INPUT; HWMON_C_INPUT ]) ].

(** The [.info] member of each chip. *)
Definition chip_channel_info (chip : hwmon_chip_info)
    : list (hwmon_sensor_types * list Z) :=
  match chip with
  | nzxt_grid_v3_chip_info => nzxt_grid_v3_channel_info
  | nzxt_smart_device_v1_chip_info => nzxt_smart_device_v1_channel_info
  end.

(** *** Buffers in a trace *)

(** The buffers [kzalloc] handed out, and the ones given back. *)
Definition allocated (tr : list event) : list Z :=
  omap (fun e => match e with
                 | (kzalloc _, ptr) => if ptr =? 0 then None else Some ptr
                 | _ => None
                 end) tr.

Definition freed (tr : list event) : list Z :=
  omap (fun e => match fst e with
                 | kfree ptr => Some ptr
                 | _ => None
                 end) tr.

(** * Properties *)

Lemma long_small z : - 2 ^ 63 <= z < 2 ^ 63 -> long z = z.
Proof.
  intros Hz. unfold long, wrap_signed.
  rewrite Z.mod_small; lia.
Qed.

Lemma uint8_t_small z : 0 <= z < 256 -> uint8_t z = z.
Proof. intros Hz. unfold uint8_t. apply Z.mod_small. lia. Qed.

Lemma uint8_t_range z : 0 <= uint8_t z < 256.
Proof. unfold uint8_t. apply Z.mod_pos_bound. lia. Qed.

Lemma bytes_nth data i : bytes data -> is_u8 (nth i data 0).
Proof.
  intros Hb. revert i. induction Hb as [|b data Hb _ IH]; intros [|i]; simpl;
    try (unfold is_u8; lia); auto.
Qed.

Lemma lor_shiftl_8 hi lo :
  0 <= lo < 256 -> Z.lor (Z.shiftl hi 8) lo = hi * 256 + lo.
Proof.
  intros Hlo.
  assert (Hland : Z.land (Z.shiftl hi 8) lo = 0).
  { apply Z.bits_inj'. intros n Hn.
    rewrite Z.land_spec, Z.bits_0.
    destruct (Z.lt_ge_cases n 8) as [Hlt|Hge].
    - rewrite Z.shiftl_spec_low by lia. reflexivity.
    - replace lo with (lo mod 2 ^ 8) by (apply Z.mod_small; lia).
      rewrite Z.mod_pow2_bits_high by lia. apply andb_false_r. }
  rewrite <- Z.lxor_lor by exact Hland.
  rewrite <- Z.add_nocarry_lxor by exact Hland.
  rewrite Z.shiftl_mul_pow2 by lia. reflexivity.
Qed.

(** ** The status report on the wire *)

Lemma sizeof_status_report : Layout.sizeof nzxt_grid_status_report = 21%nat.
Proof. reflexivity. Qed.

Lemma land_3_range b : 0 <= Z.land b 3 < 4.
Proof.
  change 3 with (Z.ones 2). rewrite Z.land_ones by lia.
  apply Z.mod_pos_bound. lia.
Qed.

Lemma get_channel_index_eq data :
  bytes data -> nzxt_grid_get_channel_index data = Z.shiftr (nth 15 data 0) 4.
Proof.
  intros Hb. unfold nzxt_grid_get_channel_index.
  change (member data "channel_index_and_fan_type") with (nth 15 data 0).
  pose proof (bytes_nth data 15 Hb) as H15. unfold is_u8 in H15.
  apply uint8_t_small. rewrite Z.shiftr_div_pow2 by lia.
  change (2 ^ 4) with 16. split.
  - apply Z.div_pos; lia.
  - apply Z.div_lt_upper_bound; lia.
Qed.

Lemma get_fan_type_eq data :
  nzxt_grid_get_fan_type data = Z.land (nth 15 data 0) 3.
Proof.
  unfold nzxt_grid_get_fan_type.
  change (member data "channel_index_and_fan_type") with (nth 15 data 0).
  apply uint8_t_small. pose proof (land_3_range (nth 15 data 0)). lia.
Qed.

(** The record [nzxt_grid_raw_event] stores, spelled out on the octets. *)
Lemma status_of_report_eq data :
  bytes data ->
  status_of_report data =
    {| type := if Z.land (nth 15 data 0) 3 =? 1 then nzxt_grid_fan_dc
               else if Z.land (nth 15 data 0) 3 =? 2 then nzxt_grid_fan_pwm
               else nzxt_grid_fan_none;
       speed_rpm := nth 3 data 0 * 256 + nth 4 data 0;
       in_millivolt := nth 7 data 0 * 1000 + nth 8 data 0 * 10;
       curr_milliamp := nth 9 data 0 * 1000 + nth 10 data 0 * 10 |}.
Proof.
  intros Hb. unfold status_of_report.
  rewrite get_fan_type_eq.
  unfold be16_to_cpup, member. cbn [Layout.offsetof nzxt_grid_status_report].
  cbn -[Z.mul Z.add Z.lor Z.shiftl Z.land long nth].
  pose proof (bytes_nth data 4 Hb) as H4.
  pose proof (bytes_nth data 7 Hb) as H7.
  pose proof (bytes_nth data 8 Hb) as H8.
  pose proof (bytes_nth data 9 Hb) as H9.
  pose proof (bytes_nth data 10 Hb) as H10.
  unfold is_u8 in *.
  rewrite lor_shiftl_8 by lia.
  rewrite !long_small by (rewrite ?long_small by lia; lia).
  f_equal.
  unfold nzxt_grid_fan_dc, nzxt_grid_fan_pwm, nzxt_grid_fan_none.
  destruct (Z.land (nth 15 data 0) 3 =? 1) eqn:E1; simpl.
  - apply Z.eqb_eq in E1. exact E1.
  - destruct (Z.land (nth 15 data 0) 3 =? 2) eqn:E2; simpl.
    + apply Z.eqb_eq in E2. exact E2.
    + reflexivity.
Qed.

(** C1: parsing a 21-byte status report follows the wire layout.  The channel
    index is octet 15 shifted right by four; the fan type is octet 15 masked
    with 3, where 1 is dc, 2 is pwm and anything else is none; the speed is
    the big-endian 16-bit value at offset 3; the voltage is
    octet 7 * 1000 + octet 8 * 10 and the current is
    octet 9 * 1000 + octet 10 * 10. *)
Theorem status_report_decode (data : list Z) :
  length data = 21%nat ->
  bytes data ->
  nzxt_grid_get_channel_index data = Z.shiftr (nth 15 data 0) 4
  /\ type (status_of_report data) =
       (match Z.land (nth 15 data 0) 0x03 with
        | 1 => nzxt_grid_fan_dc
        | 2 => nzxt_grid_fan_pwm
        | _ => nzxt_grid_fan_none
        end)
  /\ speed_rpm (status_of_report data) = nth 3 data 0 * 256 + nth 4 data 0
  /\ in_millivolt (status_of_report data) = nth 7 data 0 * 1000 + nth 8 data 0 * 10
  /\ curr_milliamp (status_of_report data) = nth 9 data 0 * 1000 + nth 10 data 0 * 10.
Proof.
  intros _ Hb. split; [exact (get_channel_index_eq data Hb)|].
  rewrite (status_of_report_eq data Hb). cbn [type speed_rpm in_millivolt curr_milliamp].
  repeat split.
  destruct (Z.land (nth 15 data 0) 3) as [|[p|p|]|p]; try reflexivity;
    destruct p; reflexivity.
Qed.

(** ** Duty mapping *)

Lemma pwm_to_percent_mid v :
  0 <= v < 255 -> nzxt_grid_pwm_to_percent v = v * 100 / 255.
Proof.
  intros Hv. unfold nzxt_grid_pwm_to_percent.
  destruct (Z.ltb_spec v 0) as [?|_]; [lia|].
  destruct (Z.leb_spec 255 v) as [?|_]; [lia|].
  rewrite long_small by lia.
  rewrite Z.quot_div_nonneg by lia.
  apply uint8_t_small.
  assert (0 <= v * 100 / 255) by (apply Z.div_pos; lia).
  assert (v * 100 / 255 < 100) by (apply Z.div_lt_upper_bound; lia).
  lia.
Qed.

Lemma pwm_to_percent_range v : 0 <= nzxt_grid_pwm_to_percent v <= 100.
Proof.
  destruct (Z.lt_ge_cases v 0) as [Hneg|Hpos].
  - unfold nzxt_grid_pwm_to_percent.
    destruct (Z.ltb_spec v 0); [lia|lia].
  - destruct (Z.lt_ge_cases v 255) as [Hlt|Hge].
    + rewrite pwm_to_percent_mid by lia.
      assert (0 <= v * 100 / 255) by (apply Z.div_pos; lia).
      assert (v * 100 / 255 < 100) by (apply Z.div_lt_upper_bound; lia).
      lia.
    + unfold nzxt_grid_pwm_to_percent.
      destruct (Z.ltb_spec v 0); [lia|].
      destruct (Z.leb_spec 255 v); lia.
Qed.

Lemma pwm_to_percent_low v : v <= 0 -> nzxt_grid_pwm_to_percent v = 0.
Proof.
  intros Hv. destruct (Z.eq_dec v 0) as [->|Hne]; [reflexivity|].
  unfold nzxt_grid_pwm_to_percent. destruct (Z.ltb_spec v 0); [reflexivity|lia].
Qed.

Lemma pwm_to_percent_high v : 255 <= v -> nzxt_grid_pwm_to_percent v = 100.
Proof.
  intros Hv. unfold nzxt_grid_pwm_to_percent.
  destruct (Z.ltb_spec v 0); [lia|].
  destruct (Z.leb_spec 255 v); [reflexivity|lia].
Qed.

Lemma pwm_to_percent_mono v w :
  v <= w -> nzxt_grid_pwm_to_percent v <= nzxt_grid_pwm_to_percent w.
Proof.
  intros Hvw.
  destruct (Z.le_gt_cases v 0) as [Hv|Hv].
  { rewrite (pwm_to_percent_low v Hv). apply pwm_to_percent_range. }
  destruct (Z.le_gt_cases 255 w) as [Hw|Hw].
  { rewrite (pwm_to_percent_high w Hw). apply pwm_to_percent_range. }
  rewrite !pwm_to_percent_mid by lia.
  apply Z.div_le_mono; lia.
Qed.

(** C2: the duty mapping stays within [0,100], is 0 up to input 0, is 100
    from input 255 on, is [v * 100 / 255] truncated toward zero in between,
    and never decreases when the input grows. *)
Theorem pwm_to_percent_spec (v : Z) :
  0 <= nzxt_grid_pwm_to_percent v <= 100
  /\ (v <= 0 -> nzxt_grid_pwm_to_percent v = 0)
  /\ (255 <= v -> nzxt_grid_pwm_to_percent v = 100)
  /\ (0 < v < 255 -> nzxt_grid_pwm_to_percent v = Z.quot (v * 100) 255)
  /\ (forall w, v <= w -> nzxt_grid_pwm_to_percent v <= nzxt_grid_pwm_to_percent w).
Proof.
  split; [apply pwm_to_percent_range|].
  split; [apply pwm_to_percent_low|].
  split; [apply pwm_to_percent_high|].
  split; [|intros w; apply pwm_to_percent_mono].
  intros Hv. rewrite Z.quot_div_nonneg by lia. apply pwm_to_percent_mid. lia.
Qed.

(** ** Status reports and the cache *)

Lemma raw_event_wrong_size grid data size :
  size <> 21 -> nzxt_grid_raw_event grid data size = (grid, 0).
Proof.
  intros Hsz. unfold nzxt_grid_raw_event. rewrite sizeof_status_report.
  destruct (Z.eqb_spec size (Z.of_nat 21)) as [->|_]; [lia|reflexivity].
Qed.

Lemma raw_event_right_size grid data :
  nzxt_grid_raw_event grid data 21 =
    if NZXT_GRID_MAX_CHANNELS <=? nzxt_grid_get_channel_index data then (grid, 0)
    else (set_channel grid (Z.to_nat (nzxt_grid_get_channel_index data))
            (status_of_report data), 0).
Proof. reflexivity. Qed.

(** C4: a buffer whose length is not 21, or a 21-byte buffer whose channel
    index is 6 or more, changes no cache entry, and the caller is told 0. *)
Theorem raw_event_rejects (grid : nzxt_grid_device) (data : list Z) :
  length data <> 21%nat
  \/ (length data = 21%nat /\ 6 <= nzxt_grid_get_channel_index data) ->
  on_raw_event grid data = (grid, 0).
Proof.
  unfold on_raw_event. intros [Hlen|[Hlen Hidx]].
  - apply raw_event_wrong_size. lia.
  - rewrite Hlen. change (Z.of_nat 21) with 21. rewrite raw_event_right_size.
    unfold NZXT_GRID_MAX_CHANNELS.
    destruct (Z.leb_spec 6 (nzxt_grid_get_channel_index data)); [reflexivity|lia].
Qed.

(** C5: a valid 21-byte report for channel c < 6 makes entry c the parsed
    update (fan type, speed, voltage, current as laid out on the wire) and
    leaves every other entry as it was. *)
Theorem raw_event_applies (grid : nzxt_grid_device) (data : list Z) (c : nat) :
  well_formed grid ->
  length data = 21%nat ->
  bytes data ->
  Z.shiftr (nth 15 data 0) 4 = Z.of_nat c ->
  (c < 6)%nat ->
  channel (fst (on_raw_event grid data)) !! c =
    Some {| type := if Z.land (nth 15 data 0) 3 =? 1 then nzxt_grid_fan_dc
                    else if Z.land (nth 15 data 0) 3 =? 2 then nzxt_grid_fan_pwm
                    else nzxt_grid_fan_none;
            speed_rpm := nth 3 data 0 * 256 + nth 4 data 0;
            in_millivolt := nth 7 data 0 * 1000 + nth 8 data 0 * 10;
            curr_milliamp := nth 9 data 0 * 1000 + nth 10 data 0 * 10 |}
  /\ (forall j : nat, j <> c ->
        channel (fst (on_raw_event grid data)) !! j = channel grid !! j)
  /\ snd (on_raw_event grid data) = 0.
Proof.
  intros Hwf Hlen Hb Hidx Hc. unfold on_raw_event.
  rewrite Hlen. change (Z.of_nat 21) with 21. rewrite raw_event_right_size.
  rewrite (get_channel_index_eq data Hb), Hidx, Nat2Z.id.
  unfold NZXT_GRID_MAX_CHANNELS.
  destruct (Z.leb_spec 6 (Z.of_nat c)) as [?|_]; [lia|].
  cbn [fst snd set_channel channel].
  rewrite <- (status_of_report_eq data Hb).
  split; [|split; [|reflexivity]].
  - apply list_lookup_insert_eq. unfold well_formed in Hwf. rewrite Hwf.
    unfold NZXT_GRID_MAX_CHANNELS. lia.
  - intros j Hj. apply list_lookup_insert_ne. congruence.
Qed.

(** [nzxt_grid_raw_event] never looks at the octet at offset 0: whatever
    that octet is, a 21-byte buffer has the same effect on the cache and the
    same result. *)
Theorem raw_event_report_id_irrelevant
    (grid : nzxt_grid_device) (data : list Z) (b : Z) :
  length data = 21%nat ->
  on_raw_event grid (<[0%nat := b]> data) = on_raw_event grid data.
Proof.
  intros Hlen. unfold on_raw_event. rewrite length_insert.
  destruct data as [|b0 data]; [discriminate|].
  reflexivity.
Qed.

(** ** Running driver routines *)

Lemma run_kbind {A B} (p : kprog A) (f : A -> kprog B) (env : oracle) (n : nat) :
  run (kbind p f) env n =
    (fst (run p env n)
       ++ fst (run (f (snd (run p env n))) env (n + length (fst (run p env n)))),
     snd (run (f (snd (run p env n))) env (n + length (fst (run p env n))))).
Proof.
  revert n. induction p as [a|c k IH]; intros n.
  - cbn. rewrite Nat.add_0_r. destruct (run (f a) env n). reflexivity.
  - cbn. specialize (IH (env n c) (S n)).
    destruct (run (kbind (k (env n c)) f) env (S n)) as [tr b].
    destruct (run (k (env n c)) env (S n)) as [tr1 a]. cbn in *.
    rewrite Nat.add_succ_r. inversion IH. reflexivity.
Qed.

(** What one send does, by the answers it gets. *)
Lemma run_send_output_report data size env n :
  run (nzxt_grid_send_output_report data size) env n =
    let buffer := env n (kzalloc 65) in
    let ret := env (S n) (hid_hw_output_report (output_buffer data size) 65) in
    if buffer =? 0 then ([(kzalloc 65, buffer)], - ENOMEM)
    else ([(kzalloc 65, buffer);
           (hid_hw_output_report (output_buffer data size) 65, ret);
           (kfree buffer, env (S (S n)) (kfree buffer))],
          if ret <? 0 then ret else 0).
Proof.
  unfold nzxt_grid_send_output_report.
  change NZXT_GRID_OUTPUT_REPORT_SIZE with 65. cbn -[output_buffer].
  destruct (env n (kzalloc 65) =? 0); reflexivity.
Qed.

Lemma output_buffer_set_fan_speed a b c d e :
  output_buffer [a; b; c; d; e]
    (Layout.sizeof nzxt_grid_command_set_fan_speed_output_report)
  = [a; b; c; d; e] ++ replicate 60 0.
Proof. reflexivity. Qed.

Lemma output_buffer_command a b :
  output_buffer [a; b] (Layout.sizeof nzxt_grid_command_output_report)
  = [a; b] ++ replicate 63 0.
Proof. reflexivity. Qed.

Lemma run_write_pwm_input channel val env n :
  env n (kzalloc 65) <> 0 ->
  let buf := [2; 0x4D; uint8_t channel; 0; nzxt_grid_pwm_to_percent val]
               ++ replicate 60 0 in
  let ret := env (S n) (hid_hw_output_report buf 65) in
  run (nzxt_grid_hwmon_write_pwm_input channel val) env n =
    ([ (kzalloc 65, env n (kzalloc 65));
       (hid_hw_output_report buf 65, ret);
       (kfree (env n (kzalloc 65)), env (S (S n)) (kfree (env n (kzalloc 65)))) ],
     if ret <? 0 then ret else 0).
Proof.
  intros Halloc. unfold nzxt_grid_hwmon_write_pwm_input.
  rewrite run_send_output_report. cbv zeta.
  destruct (Z.eqb_spec (env n (kzalloc 65)) 0) as [?|_]; [contradiction|].
  rewrite output_buffer_set_fan_speed. reflexivity.
Qed.

(** C3: for a channel octet c and a duty d, once the 65-byte buffer is
    allocated the set-fan-speed command handed to the transport is one output
    report of 65 octets: 0x02, 0x4D, c, 0, d, then sixty zeros. *)
Theorem set_fan_speed_command (c d val : Z) (env : oracle) (n : nat) :
  0 <= c < 256 ->
  nzxt_grid_pwm_to_percent val = d ->
  env n (kzalloc NZXT_GRID_OUTPUT_REPORT_SIZE) <> 0 ->
  map fst (fst (run (nzxt_grid_hwmon_write_pwm_input c val) env n)) =
    [ kzalloc 65;
      hid_hw_output_report ([0x02; 0x4D; c; 0; d] ++ replicate 60 0) 65;
      kfree (env n (kzalloc 65)) ]
  /\ submissions (fst (run (nzxt_grid_hwmon_write_pwm_input c val) env n)) =
       [[0x02; 0x4D; c; 0; d] ++ replicate 60 0]
  /\ length ([0x02; 0x4D; c; 0; d] ++ replicate 60 0) = 65%nat.
Proof.
  intros Hc Hd Halloc.
  rewrite (run_write_pwm_input c val env n Halloc).
  rewrite (uint8_t_small c Hc), Hd.
  repeat split.
Qed.

Lemma uint8_t_low_bits z : uint8_t z = Z.land z 0xFF.
Proof. unfold uint8_t. change 0xFF with (Z.ones 8). rewrite Z.land_ones by lia. reflexivity. Qed.

Lemma hwmon_write_pwm_input_eq channel val :
  nzxt_grid_hwmon_write hwmon_pwm hwmon_pwm_input channel val =
    nzxt_grid_hwmon_write_pwm_input channel val.
Proof.
  unfold nzxt_grid_hwmon_write, nzxt_grid_hwmon_write_pwm.
  rewrite Z.eqb_refl. reflexivity.
Qed.

(** C10: a write of pwm.input is not range-checked on the channel.  For any
    integer channel, negative or 6 and above included, the command that goes
    out carries the channel's low eight bits in octet 2, and the result is
    the transport's verdict only. *)
Theorem write_channel_unchecked (channel val : Z) (env : oracle) (n : nat) :
  env n (kzalloc NZXT_GRID_OUTPUT_REPORT_SIZE) <> 0 ->
  submissions
    (fst (run (nzxt_grid_hwmon_write hwmon_pwm hwmon_pwm_input channel val) env n)) =
    [[0x02; 0x4D; Z.land channel 0xFF; 0; nzxt_grid_pwm_to_percent val]
       ++ replicate 60 0]
  /\ snd (run (nzxt_grid_hwmon_write hwmon_pwm hwmon_pwm_input channel val) env n) =
       (let ret :=
          env (S n)
            (hid_hw_output_report
               ([0x02; 0x4D; Z.land channel 0xFF; 0; nzxt_grid_pwm_to_percent val]
                  ++ replicate 60 0) 65) in
        if ret <? 0 then ret else 0).
Proof.
  intros Halloc. rewrite hwmon_write_pwm_input_eq.
  rewrite (run_write_pwm_input channel val env n Halloc).
  rewrite uint8_t_low_bits. split; reflexivity.
Qed.

Lemma hwmon_write_other ty attr channel val env n :
  ~ (ty = hwmon_pwm /\ attr = hwmon_pwm_input) ->
  run (nzxt_grid_hwmon_write ty attr channel val) env n = ([], - EINVAL).
Proof.
  intros Hne. unfold nzxt_grid_hwmon_write, nzxt_grid_hwmon_write_pwm.
  destruct ty; try reflexivity.
  destruct (Z.eqb_spec attr hwmon_pwm_input) as [->|_]; [|reflexivity].
  exfalso. apply Hne. split; reflexivity.
Qed.

(** C7: only a write of kind pwm with attribute pwm.input can put a command
    on the wire; a write with any other kind or attribute fails with
    invalid-argument and submits nothing. *)
Theorem hwmon_write_only_pwm_input
    (ty : hwmon_sensor_types) (attr channel val : Z) (env : oracle) (n : nat) :
  (submissions (fst (run (nzxt_grid_hwmon_write ty attr channel val) env n)) <> [] ->
   ty = hwmon_pwm /\ attr = hwmon_pwm_input)
  /\ (~ (ty = hwmon_pwm /\ attr = hwmon_pwm_input) ->
      run (nzxt_grid_hwmon_write ty attr channel val) env n = ([], - EINVAL)).
Proof.
  split.
  - intros Hsub.
    assert (Hdec : {ty = hwmon_pwm /\ attr = hwmon_pwm_input}
                   + {~ (ty = hwmon_pwm /\ attr = hwmon_pwm_input)}).
    { destruct (Z.eq_dec attr hwmon_pwm_input) as [->|Hattr].
      - destruct ty; (left; split; reflexivity) || (right; intros [H _]; discriminate).
      - right. intros [_ H]. contradiction. }
    destruct Hdec as [Hyes|Hno]; [exact Hyes|].
    rewrite (hwmon_write_other ty attr channel val env n Hno) in Hsub.
    exfalso. apply Hsub. reflexivity.
  - apply hwmon_write_other.
Qed.

(** ** Sensor reads *)

Lemma channel_at_Some grid index st :
  0 <= index -> channel grid !! Z.to_nat index = Some st ->
  channel_at grid index = Some st.
Proof.
  intros Hidx Hst. unfold channel_at.
  destruct (Z.ltb_spec index 0); [lia|exact Hst].
Qed.

(** C6: on any cache and any channel of it, a read gives the speed for
    fan.input, 1 or 0 for pwm.mode according to whether the entry's type is
    pwm, the voltage for in.input and the current for curr.input; every other
    pair of kind and attribute fails with invalid-argument and leaves the
    caller's cell alone. *)
Theorem hwmon_read_spec
    (grid : nzxt_grid_device) (index val : Z) (st : nzxt_grid_channel_status) :
  0 <= index ->
  channel grid !! Z.to_nat index = Some st ->
  nzxt_grid_hwmon_read grid hwmon_fan hwmon_fan_input index val
    = Some (0, speed_rpm st)
  /\ nzxt_grid_hwmon_read grid hwmon_pwm hwmon_pwm_mode index val
    = Some (0, if type st =? nzxt_grid_fan_pwm then 1 else 0)
  /\ nzxt_grid_hwmon_read grid hwmon_in hwmon_in_input index val
    = Some (0, in_millivolt st)
  /\ nzxt_grid_hwmon_read grid hwmon_curr hwmon_curr_input index val
    = Some (0, curr_milliamp st)
  /\ (forall (ty : hwmon_sensor_types) (attr : Z),
        ~ (ty = hwmon_fan /\ attr = hwmon_fan_input) ->
        ~ (ty = hwmon_pwm /\ attr = hwmon_pwm_mode) ->
        ~ (ty = hwmon_in /\ attr = hwmon_in_input) ->
        ~ (ty = hwmon_curr /\ attr = hwmon_curr_input) ->
        nzxt_grid_hwmon_read grid ty attr index val = Some (- EINVAL, val)).
Proof.
  intros Hidx Hst. unfold nzxt_grid_hwmon_read.
  rewrite (channel_at_Some grid index st Hidx Hst). cbn [mbind option_bind].
  unfold nzxt_grid_hwmon_read_fan, nzxt_grid_hwmon_read_pwm,
    nzxt_grid_hwmon_read_in, nzxt_grid_hwmon_read_curr.
  rewrite !Z.eqb_refl. repeat split.
  intros ty attr Hfan Hpwm Hin Hcurr.
  destruct ty; try reflexivity.
  - destruct (Z.eqb_spec attr hwmon_in_input) as [->|_]; [|reflexivity].
    exfalso. apply Hin. split; reflexivity.
  - destruct (Z.eqb_spec attr hwmon_curr_input) as [->|_]; [|reflexivity].
    exfalso. apply Hcurr. split; reflexivity.
  - destruct (Z.eqb_spec attr hwmon_fan_input) as [->|_]; [|reflexivity].
    exfalso. apply Hfan. split; reflexivity.
  - destruct (Z.eqb_spec attr hwmon_pwm_mode) as [->|_]; [|reflexivity].
    exfalso. apply Hpwm. split; reflexivity.
Qed.

(** ** The attach handshake *)

Lemma int_small z : - 2 ^ 31 <= z < 2 ^ 31 -> int z = z.
Proof.
  intros Hz. unfold int, wrap_signed.
  rewrite Z.mod_small; lia.
Qed.

(** Case analysis on the answers a routine tests, innermost test first. *)
Ltac case_answers H :=
  repeat match type of H with
         | context [if ?b then _ else _] =>
             lazymatch b with
             | context [if _ then _ else _] => fail
             | _ => let E := fresh "E" in
                    destruct b eqn:E; cbn -[output_buffer] in H
             end
         end.

Ltac bool_answers :=
  repeat match goal with
         | E : negb _ = true |- _ => apply negb_true_iff in E
         | E : negb _ = false |- _ => apply negb_false_iff in E
         end.

Ltac use_answers :=
  repeat match goal with
         | E : ?b = _ |- context [?b] => rewrite E
         end.

Ltac Z_answers :=
  repeat match goal with
         | E : (_ =? _) = true |- _ => apply Z.eqb_eq in E
         | E : (_ =? _) = false |- _ => apply Z.eqb_neq in E
         | E : (_ <? _) = true |- _ => apply Z.ltb_lt in E
         | E : (_ <? _) = false |- _ => apply Z.ltb_ge in E
         end.

Ltac no_failed_step H :=
  repeat match type of H with
         | Exists _ (_ :: _) => apply Exists_cons in H; destruct H as [H|H]
         | Exists _ [] => apply Exists_nil in H; contradiction
         | _ => revert H; cbn -[output_buffer]; use_answers; discriminate
         end.

Ltac find_failed_step :=
  first [ apply Exists_cons_hd; cbn -[output_buffer]; use_answers; reflexivity
        | apply Exists_cons_tl; find_failed_step ].

Ltac ret_nonzero :=
  Z_answers;
  try match goal with
      | E : ?is_err ?h = true, R : forall p, ?is_err p = true -> _ |- _ =>
          pose proof (R h E); rewrite ?int_small in * by lia
      end;
  lia.

Ltac split_trace k :=
  match goal with
  | |- exists done cleanup, ?tr = _ /\ _ =>
      exists (take (length tr - k) tr), (drop (length tr - k) tr)
  end;
  cbn -[output_buffer];
  split; [reflexivity|];
  split; [find_failed_step|];
  split; [repeat constructor|];
  unfold unwinding; cbn -[output_buffer]; use_answers; reflexivity.

(** C8: a successful attach makes exactly two submissions, the 65-byte
    buffer starting 0x02 0x5C and then the one starting 0x02 0x5D, and
    registers the sensor surface last; whenever the surface is registered at
    all, both submissions were made and succeeded before; and if a step
    fails, the attach fails and what the earlier steps acquired is released
    in reverse order. *)
Theorem probe_handshake
    (hdev : Z) (driver_data : device_config) (env : oracle)
    (tr : list event) (ret : Z) (dev : option nzxt_grid_device) :
  run (nzxt_grid_probe hdev driver_data) env 0 = (tr, (ret, dev)) ->
  (ret = 0 ->
     exists buffer1 buffer2 : Z,
       map fst tr =
         [ devm_kzalloc; hid_parse; hid_hw_start HID_CONNECT_HIDRAW; hid_hw_open;
           hid_device_io_start;
           kzalloc 65;
           hid_hw_output_report ([0x02; 0x5C] ++ replicate 63 0) 65;
           kfree buffer1;
           kzalloc 65;
           hid_hw_output_report ([0x02; 0x5D] ++ replicate 63 0) 65;
           kfree buffer2;
           hwmon_device_register_with_info "nzxtgrid"
             (nzxt_grid_device_configs driver_data) ]
       /\ submissions tr =
            [[0x02; 0x5C] ++ replicate 63 0; [0x02; 0x5D] ++ replicate 63 0]
       /\ Forall (fun e => step_failed e = false) tr)
  /\ (forall before : list event,
        before_register tr = Some before ->
        submissions before =
          [[0x02; 0x5C] ++ replicate 63 0; [0x02; 0x5D] ++ replicate 63 0]
        /\ Forall (fun e => step_failed e = false) before)
  /\ (ret <> 0 ->
      exists done cleanup : list event,
        tr = done ++ cleanup
        /\ Exists (fun e => step_failed e = true) done
        /\ Forall (fun e => is_release (fst e) = false) done
        /\ map fst cleanup = unwinding done)
  /\ (ret <> 0 <-> Exists (fun e => step_failed e = true) tr).
Proof.
  unfold nzxt_grid_probe, nzxt_grid_detect_fans, nzxt_grid_start_reporting,
    nzxt_grid_send_output_report, out_hw_close, out_hw_stop.
  change NZXT_GRID_OUTPUT_REPORT_SIZE with 65.
  intros Hrun.
  cbn -[output_buffer] in Hrun.
  case_answers Hrun.
  all: injection Hrun as <- <- <-.
  all: bool_answers.
  all: try (exfalso; Z_answers; lia).
  all: change (uint8_t nzxt_grid_report_id_command) with 2 in *.
  all: change (uint8_t nzxt_grid_command_detect_fans) with 0x5C in *.
  all: change (uint8_t nzxt_grid_command_start_reporting) with 0x5D in *.
  all: split;
         [intros Hret
         |split; [intros before Hbefore
                 |split; [intros Hret
                         |split; [intros Hret|intros Hex]]]].
  all: try solve [discriminate Hbefore].
  all: try solve [injection Hbefore as <-; rewrite <- !output_buffer_command;
                  split; [reflexivity|];
                  repeat constructor; cbn -[output_buffer]; use_answers; reflexivity].
  all: try solve [exfalso; ret_nonzero].
  all: try solve [ret_nonzero].
  all: try solve [find_failed_step].
  all: try solve [no_failed_step Hex].
  all: try solve [split_trace 0%nat | split_trace 1%nat | split_trace 2%nat].
  - eexists _, _. rewrite <- !output_buffer_command.
    split; [reflexivity|]. split; [reflexivity|].
    repeat constructor; cbn -[output_buffer]; use_answers; reflexivity.
Qed.

(** * Further properties of the driver *)

(** ** The cache under status reports *)

Lemma get_channel_index_nonneg data : 0 <= nzxt_grid_get_channel_index data.
Proof. unfold nzxt_grid_get_channel_index. apply uint8_t_range. Qed.

Lemma raw_event_cases grid data size :
  nzxt_grid_raw_event grid data size = (grid, 0)
  \/ (size = 21
      /\ nzxt_grid_get_channel_index data < 6
      /\ nzxt_grid_raw_event grid data size =
           (set_channel grid (Z.to_nat (nzxt_grid_get_channel_index data))
              (status_of_report data), 0)).
Proof.
  destruct (Z.eq_dec size 21) as [->|Hsz].
  - rewrite raw_event_right_size. unfold NZXT_GRID_MAX_CHANNELS.
    destruct (Z.leb_spec 6 (nzxt_grid_get_channel_index data)).
    + left. reflexivity.
    + right. auto.
  - left. apply raw_event_wrong_size. exact Hsz.
Qed.

Lemma raw_event_uniform data size :
  exists accepted : bool,
    (accepted = true -> nzxt_grid_get_channel_index data < 6)
    /\ forall grid,
         nzxt_grid_raw_event grid data size =
           (if accepted
            then set_channel grid (Z.to_nat (nzxt_grid_get_channel_index data))
                   (status_of_report data)
            else grid, 0).
Proof.
  destruct (Z.eq_dec size 21) as [->|Hsz].
  - destruct (Z.leb_spec 6 (nzxt_grid_get_channel_index data)) as [Hge|Hlt].
    + exists false. split; [discriminate|]. intros grid.
      rewrite raw_event_right_size. unfold NZXT_GRID_MAX_CHANNELS.
      destruct (Z.leb_spec 6 (nzxt_grid_get_channel_index data)); [reflexivity|lia].
    + exists true. split; [intros _; exact Hlt|]. intros grid.
      rewrite raw_event_right_size. unfold NZXT_GRID_MAX_CHANNELS.
      destruct (Z.leb_spec 6 (nzxt_grid_get_channel_index data)); [lia|reflexivity].
  - exists false. split; [discriminate|]. intros grid.
    apply raw_event_wrong_size. exact Hsz.
Qed.

(** X1: whatever it is given, [nzxt_grid_raw_event] answers 0, keeps the
    number of slots of the cache, and leaves the transport and sensor
    handles of the device alone. *)
Theorem raw_event_keeps_shape (grid : nzxt_grid_device) (data : list Z) (size : Z) :
  snd (nzxt_grid_raw_event grid data size) = 0
  /\ length (channel (fst (nzxt_grid_raw_event grid data size))) =
       length (channel grid)
  /\ hid (fst (nzxt_grid_raw_event grid data size)) = hid grid
  /\ hwmon (fst (nzxt_grid_raw_event grid data size)) = hwmon grid.
Proof.
  destruct (raw_event_cases grid data size) as [->|(_ & _ & ->)];
    cbn [fst snd set_channel channel hid hwmon];
    rewrite ?length_insert; repeat split.
Qed.

Lemma status_of_report_range data :
  bytes data ->
  (type (status_of_report data) = nzxt_grid_fan_none
   \/ type (status_of_report data) = nzxt_grid_fan_dc
   \/ type (status_of_report data) = nzxt_grid_fan_pwm)
  /\ 0 <= speed_rpm (status_of_report data) <= 65535
  /\ 0 <= in_millivolt (status_of_report data) <= 257550
  /\ 0 <= curr_milliamp (status_of_report data) <= 257550.
Proof.
  intros Hb. rewrite (status_of_report_eq data Hb).
  cbn [type speed_rpm in_millivolt curr_milliamp].
  pose proof (bytes_nth data 3 Hb) as H3.
  pose proof (bytes_nth data 4 Hb) as H4.
  pose proof (bytes_nth data 7 Hb) as H7.
  pose proof (bytes_nth data 8 Hb) as H8.
  pose proof (bytes_nth data 9 Hb) as H9.
  pose proof (bytes_nth data 10 Hb) as H10.
  unfold is_u8 in *.
  split; [|lia].
  destruct (Z.land (nth 15 data 0) 3 =? 1); [auto|].
  destruct (Z.land (nth 15 data 0) 3 =? 2); auto.
Qed.

(** X2: a status report made of octets only ever stores values within the
    device's range: every entry of the cache after the event is either an
    entry it held before, or has a type among none, dc and pwm, a speed of at
    most 65535 rpm, and a voltage and a current of at most 257550. *)
Theorem raw_event_stores_in_range
    (grid : nzxt_grid_device) (data : list Z) (size : Z)
    (i : nat) (st : nzxt_grid_channel_status) :
  bytes data ->
  channel (fst (nzxt_grid_raw_event grid data size)) !! i = Some st ->
  channel grid !! i = Some st
  \/ ((type st = nzxt_grid_fan_none \/ type st = nzxt_grid_fan_dc
       \/ type st = nzxt_grid_fan_pwm)
      /\ 0 <= speed_rpm st <= 65535
      /\ 0 <= in_millivolt st <= 257550
      /\ 0 <= curr_milliamp st <= 257550).
Proof.
  intros Hb.
  destruct (raw_event_cases grid data size) as [->|(_ & _ & ->)];
    cbn [fst set_channel channel]; [auto|].
  intros Hst. apply list_lookup_insert_Some in Hst as [(_ & <- & _)|(_ & Hold)].
  - right. apply status_of_report_range. exact Hb.
  - left. exact Hold.
Qed.

(** X3: delivering the same report a second time changes nothing more. *)
Theorem raw_event_idempotent (grid : nzxt_grid_device) (data : list Z) (size : Z) :
  nzxt_grid_raw_event (fst (nzxt_grid_raw_event grid data size)) data size =
    nzxt_grid_raw_event grid data size.
Proof.
  destruct (raw_event_cases grid data size) as [H|(Hsz & Hidx & H)].
  - rewrite H. exact H.
  - rewrite H. cbn [fst]. subst size. rewrite raw_event_right_size.
    unfold NZXT_GRID_MAX_CHANNELS.
    destruct (Z.leb_spec 6 (nzxt_grid_get_channel_index data)) as [?|_]; [lia|].
    unfold set_channel. cbn [hid hwmon channel].
    rewrite list_insert_insert_eq. reflexivity.
Qed.

(** X4: of two reports for the same channel the later one wins: the cache
    after both is the cache after the second alone. *)
Theorem raw_event_overwrites
    (grid : nzxt_grid_device) (data1 data2 : list Z) (size : Z) :
  nzxt_grid_get_channel_index data1 = nzxt_grid_get_channel_index data2 ->
  fst (nzxt_grid_raw_event (fst (nzxt_grid_raw_event grid data1 size)) data2 size) =
    fst (nzxt_grid_raw_event grid data2 size).
Proof.
  intros Hidx.
  destruct (raw_event_cases grid data1 size) as [->|(Hsz & Hlt & ->)];
    [reflexivity|].
  cbn [fst]. subst size. rewrite !raw_event_right_size.
  unfold NZXT_GRID_MAX_CHANNELS. rewrite <- Hidx.
  destruct (Z.leb_spec 6 (nzxt_grid_get_channel_index data1)) as [?|_]; [lia|].
  unfold set_channel. cbn [fst hid hwmon channel].
  rewrite list_insert_insert_eq. reflexivity.
Qed.

(** X5: reports for different channels do not interfere: delivered in
    either order they leave the same cache. *)
Theorem raw_event_commutes
    (grid : nzxt_grid_device) (data1 data2 : list Z) (size1 size2 : Z) :
  nzxt_grid_get_channel_index data1 <> nzxt_grid_get_channel_index data2 ->
  fst (nzxt_grid_raw_event (fst (nzxt_grid_raw_event grid data1 size1)) data2 size2) =
    fst (nzxt_grid_raw_event (fst (nzxt_grid_raw_event grid data2 size2)) data1 size1).
Proof.
  intros Hne.
  pose proof (get_channel_index_nonneg data1) as H1.
  pose proof (get_channel_index_nonneg data2) as H2.
  destruct (raw_event_uniform data1 size1) as (b1 & _ & E1).
  destruct (raw_event_uniform data2 size2) as (b2 & _ & E2).
  rewrite !E1, !E2. cbn [fst].
  destruct b1, b2; try reflexivity.
  unfold set_channel. cbn [hid hwmon channel]. f_equal.
  apply list_insert_insert_ne. lia.
Qed.

(** X6: only the octets at offsets 3, 4, 7, 8, 9, 10 and 15 of a report
    matter.  Two 21-byte buffers that agree there, whatever their reserved
    and firmware-version octets, have the same effect. *)
Theorem raw_event_reads_seven_octets
    (grid : nzxt_grid_device) (data1 data2 : list Z) :
  length data1 = 21%nat ->
  length data2 = 21%nat ->
  Forall (fun i => nth i data1 0 = nth i data2 0) [3; 4; 7; 8; 9; 10; 15]%nat ->
  on_raw_event grid data1 = on_raw_event grid data2.
Proof.
  intros Hl1 Hl2 Hagree. unfold on_raw_event. rewrite Hl1, Hl2.
  change (Z.of_nat 21) with 21. rewrite !raw_event_right_size.
  assert (Hidx : nzxt_grid_get_channel_index data1 = nzxt_grid_get_channel_index data2).
  { unfold nzxt_grid_get_channel_index, member.
    cbn [Layout.offsetof nzxt_grid_status_report]. cbn -[nth uint8_t Z.shiftr].
    rewrite !Forall_cons in Hagree. destruct Hagree as (_&_&_&_&_&_&->&_).
    reflexivity. }
  assert (Hst : status_of_report data1 = status_of_report data2).
  { unfold status_of_report, nzxt_grid_get_fan_type, be16_to_cpup, member.
    cbn [Layout.offsetof nzxt_grid_status_report].
    cbn -[nth uint8_t Z.shiftl Z.lor Z.land Z.mul Z.add long Z.eqb].
    rewrite !Forall_cons in Hagree.
    destruct Hagree as (->&->&->&->&->&->&->&_). reflexivity. }
  rewrite Hidx, Hst. reflexivity.
Qed.

(** ** Reading back what a report stored *)

Lemma on_raw_event_accepted grid data c :
  length data = 21%nat ->
  bytes data ->
  Z.shiftr (nth 15 data 0) 4 = Z.of_nat c ->
  (c < 6)%nat ->
  on_raw_event grid data = (set_channel grid c (status_of_report data), 0).
Proof.
  intros Hlen Hb Hidx Hc. unfold on_raw_event. rewrite Hlen.
  change (Z.of_nat 21) with 21. rewrite raw_event_right_size.
  rewrite (get_channel_index_eq data Hb), Hidx, Nat2Z.id.
  unfold NZXT_GRID_MAX_CHANNELS.
  destruct (Z.leb_spec 6 (Z.of_nat c)) as [?|_]; [lia|reflexivity].
Qed.

(** X7: what a status report for channel c stored is what the sensor
    framework reads back on channel c: the big-endian speed under fan.input,
    the voltage under in.input, the current under curr.input, and under
    pwm.mode 1 exactly when the two type bits are 2. *)
Theorem read_after_raw_event
    (grid : nzxt_grid_device) (data : list Z) (c : nat) (val : Z) :
  well_formed grid ->
  length data = 21%nat ->
  bytes data ->
  Z.shiftr (nth 15 data 0) 4 = Z.of_nat c ->
  (c < 6)%nat ->
  nzxt_grid_hwmon_read (fst (on_raw_event grid data))
      hwmon_fan hwmon_fan_input (Z.of_nat c) val
    = Some (0, nth 3 data 0 * 256 + nth 4 data 0)
  /\ nzxt_grid_hwmon_read (fst (on_raw_event grid data))
       hwmon_pwm hwmon_pwm_mode (Z.of_nat c) val
     = Some (0, if Z.land (nth 15 data 0) 3 =? 2 then 1 else 0)
  /\ nzxt_grid_hwmon_read (fst (on_raw_event grid data))
       hwmon_in hwmon_in_input (Z.of_nat c) val
     = Some (0, nth 7 data 0 * 1000 + nth 8 data 0 * 10)
  /\ nzxt_grid_hwmon_read (fst (on_raw_event grid data))
       hwmon_curr hwmon_curr_input (Z.of_nat c) val
     = Some (0, nth 9 data 0 * 1000 + nth 10 data 0 * 10).
Proof.
  intros Hwf Hlen Hb Hidx Hc.
  rewrite (on_raw_event_accepted grid data c Hlen Hb Hidx Hc). cbn [fst].
  assert (Hat : channel_at (set_channel grid c (status_of_report data)) (Z.of_nat c)
                = Some (status_of_report data)).
  { apply channel_at_Some; [lia|]. rewrite Nat2Z.id. cbn [set_channel channel].
    apply list_lookup_insert_eq. unfold well_formed in Hwf. rewrite Hwf.
    unfold NZXT_GRID_MAX_CHANNELS. lia. }
  unfold nzxt_grid_hwmon_read. rewrite Hat. cbn [mbind option_bind].
  unfold nzxt_grid_hwmon_read_fan, nzxt_grid_hwmon_read_pwm,
    nzxt_grid_hwmon_read_in, nzxt_grid_hwmon_read_curr.
  rewrite !Z.eqb_refl. rewrite (status_of_report_eq data Hb).
  cbn [type speed_rpm in_millivolt curr_milliamp].
  repeat split. do 2 f_equal.
  unfold nzxt_grid_fan_dc, nzxt_grid_fan_pwm, nzxt_grid_fan_none.
  destruct (Z.eqb_spec (Z.land (nth 15 data 0) 3) 1) as [E1|E1].
  - rewrite E1. reflexivity.
  - destruct (Z.eqb_spec (Z.land (nth 15 data 0) 3) 2); reflexivity.
Qed.

(** X8: a status report does not disturb what is read on any channel other
    than its own, for every sensor kind and attribute. *)
Theorem read_other_channel_after_raw_event
    (grid : nzxt_grid_device) (data : list Z) (size : Z)
    (ty : hwmon_sensor_types) (attr index val : Z) :
  index <> nzxt_grid_get_channel_index data ->
  nzxt_grid_hwmon_read (fst (nzxt_grid_raw_event grid data size)) ty attr index val =
    nzxt_grid_hwmon_read grid ty attr index val.
Proof.
  intros Hne. pose proof (get_channel_index_nonneg data) as Hidx.
  destruct (raw_event_uniform data size) as (b & _ & E). rewrite E. cbn [fst].
  destruct b; [|reflexivity].
  unfold nzxt_grid_hwmon_read, channel_at.
  destruct (Z.ltb_spec index 0) as [?|Hpos]; [reflexivity|].
  cbn [set_channel channel].
  rewrite list_lookup_insert_ne by lia. reflexivity.
Qed.

(** ** Output reports *)

(** X9: the buffer built for a command of [size] octets is always 65 octets
    long, starts with the command's octets and is zero from there on. *)
Theorem output_buffer_padding (data : list Z) (size : nat) :
  (size <= length data)%nat ->
  (size <= 65)%nat ->
  length (output_buffer data size) = 65%nat
  /\ take size (output_buffer data size) = take size data
  /\ drop size (output_buffer data size) = replicate (65 - size) 0.
Proof.
  intros Hdata Hsize. unfold output_buffer, memcpy.
  change (Z.to_nat NZXT_GRID_OUTPUT_REPORT_SIZE) with 65%nat.
  assert (Hlen : length (take size data) = size) by (apply length_take_le; lia).
  split; [|split].
  - rewrite length_app, Hlen, length_drop, length_replicate. lia.
  - apply take_app_length'. symmetry. exact Hlen.
  - rewrite drop_app_length' by (symmetry; exact Hlen).
    apply drop_replicate.
Qed.

Lemma run_hwmon_write_pwm_input_alloc_failed channel val env n :
  env n (kzalloc 65) = 0 ->
  run (nzxt_grid_hwmon_write_pwm_input channel val) env n =
    ([(kzalloc 65, 0)], - ENOMEM).
Proof.
  intros Halloc. unfold nzxt_grid_hwmon_write_pwm_input.
  rewrite run_send_output_report. cbv zeta. rewrite Halloc. reflexivity.
Qed.

(** X10: when the 65-byte buffer cannot be allocated, a write of pwm.input
    fails with out-of-memory; nothing is handed to the transport and nothing
    is freed. *)
Theorem hwmon_write_out_of_memory (channel val : Z) (env : oracle) (n : nat) :
  env n (kzalloc NZXT_GRID_OUTPUT_REPORT_SIZE) = 0 ->
  run (nzxt_grid_hwmon_write hwmon_pwm hwmon_pwm_input channel val) env n =
    ([(kzalloc 65, 0)], - ENOMEM)
  /\ submissions
       (fst (run (nzxt_grid_hwmon_write hwmon_pwm hwmon_pwm_input channel val) env n))
     = []
  /\ freed
       (fst (run (nzxt_grid_hwmon_write hwmon_pwm hwmon_pwm_input channel val) env n))
     = [].
Proof.
  intros Halloc. rewrite hwmon_write_pwm_input_eq.
  rewrite (run_hwmon_write_pwm_input_alloc_failed channel val env n Halloc).
  repeat split.
Qed.

Lemma hwmon_write_dec (ty : hwmon_sensor_types) (attr : Z) :
  {ty = hwmon_pwm /\ attr = hwmon_pwm_input}
  + {~ (ty = hwmon_pwm /\ attr = hwmon_pwm_input)}.
Proof.
  destruct (Z.eq_dec attr hwmon_pwm_input) as [->|Hattr].
  - destruct ty; (left; split; reflexivity) || (right; intros [H _]; discriminate).
  - right. intros [_ H]. contradiction.
Qed.

(** X11: a write never leaks its buffer: on every path, whatever the kind,
    the attribute and the answers of the kernel, the buffers freed are
    exactly the buffers that were allocated. *)
Theorem hwmon_write_frees_buffer
    (ty : hwmon_sensor_types) (attr channel val : Z) (env : oracle) (n : nat) :
  freed (fst (run (nzxt_grid_hwmon_write ty attr channel val) env n)) =
    allocated (fst (run (nzxt_grid_hwmon_write ty attr channel val) env n)).
Proof.
  destruct (hwmon_write_dec ty attr) as [[-> ->]|Hno].
  - rewrite hwmon_write_pwm_input_eq.
    destruct (Z.eq_dec (env n (kzalloc 65)) 0) as [Hz|Hnz].
    + rewrite (run_hwmon_write_pwm_input_alloc_failed channel val env n Hz).
      reflexivity.
    + rewrite (run_write_pwm_input channel val env n Hnz).
      cbn -[replicate]. apply Z.eqb_neq in Hnz. rewrite Hnz. reflexivity.
  - rewrite (hwmon_write_other ty attr channel val env n Hno). reflexivity.
Qed.

(** X12: a write reports success only when it really sent the command: a
    result of 0 means kind pwm, attribute pwm.input, exactly one submission
    of the set-fan-speed report, and a transport that did not answer with an
    error. *)
Theorem hwmon_write_success
    (ty : hwmon_sensor_types) (attr channel val : Z) (env : oracle) (n : nat) :
  EINVAL <> 0 ->
  snd (run (nzxt_grid_hwmon_write ty attr channel val) env n) = 0 ->
  ty = hwmon_pwm
  /\ attr = hwmon_pwm_input
  /\ submissions (fst (run (nzxt_grid_hwmon_write ty attr channel val) env n)) =
       [[0x02; 0x4D; uint8_t channel; 0; nzxt_grid_pwm_to_percent val]
          ++ replicate 60 0]
  /\ 0 <= env (S n)
            (hid_hw_output_report
               ([0x02; 0x4D; uint8_t channel; 0; nzxt_grid_pwm_to_percent val]
                  ++ replicate 60 0) 65).
Proof.
  intros Hinval.
  destruct (hwmon_write_dec ty attr) as [[-> ->]|Hno].
  - rewrite hwmon_write_pwm_input_eq.
    destruct (Z.eq_dec (env n (kzalloc 65)) 0) as [Hz|Hnz].
    + rewrite (run_hwmon_write_pwm_input_alloc_failed channel val env n Hz).
      cbn [snd]. lia.
    + rewrite (run_write_pwm_input channel val env n Hnz). cbn [fst snd].
      intros Hret. split; [reflexivity|]. split; [reflexivity|].
      split; [reflexivity|].
      destruct (Z.ltb_spec
                  (env (S n)
                     (hid_hw_output_report
                        ([2; 77; uint8_t channel; 0; nzxt_grid_pwm_to_percent val]
                           ++ replicate 60 0) 65)) 0); lia.
  - rewrite (hwmon_write_other ty attr channel val env n Hno). cbn [snd]. lia.
Qed.

(** ** Attach and detach *)

(** The paths of [nzxt_grid_probe], one goal per combination of answers. *)
Ltac probe_paths Hrun :=
  unfold nzxt_grid_probe, nzxt_grid_detect_fans, nzxt_grid_start_reporting,
    nzxt_grid_send_output_report, out_hw_close, out_hw_stop in Hrun;
  change NZXT_GRID_OUTPUT_REPORT_SIZE with 65 in Hrun;
  cbn -[output_buffer] in Hrun;
  case_answers Hrun;
  bool_answers;
  change (uint8_t nzxt_grid_report_id_command) with 2 in *;
  change (uint8_t nzxt_grid_command_detect_fans) with 0x5C in *;
  change (uint8_t nzxt_grid_command_start_reporting) with 0x5D in *.

(** Names the result 0 of a successful run, so that every path yields the
    same three equations. *)
Ltac name_result Hrun ret Hret :=
  match type of Hrun with
  | ?r = (?tr, (0, ?dev)) =>
      assert (Hgen : exists ret, ret = 0 /\ r = (tr, (ret, dev)))
        by (exists 0; split; [reflexivity|exact Hrun]);
      clear Hrun; destruct Hgen as (ret & Hret & Hrun)
  end.

(** X13: a successful attach hands back a device bound to the transport it
    was given and to the handle the registration returned; that handle is the
    answer to the last call made and is not an error pointer. *)
Theorem probe_success_device
    (hdev : Z) (driver_data : device_config) (env : oracle)
    (tr : list event) (dev : option nzxt_grid_device) :
  run (nzxt_grid_probe hdev driver_data) env 0 = (tr, (0, dev)) ->
  exists (grid : nzxt_grid_device) (handle : Z),
    dev = Some grid
    /\ hid grid = hdev
    /\ hwmon grid = handle
    /\ IS_ERR handle = false
    /\ last tr =
         Some (hwmon_device_register_with_info "nzxtgrid"
                 (nzxt_grid_device_configs driver_data), handle).
Proof.
  intros Hrun. name_result Hrun ret Hret. probe_paths Hrun.
  all: injection Hrun as <- <- <-.
  all: try solve [exfalso; ret_nonzero].
  eexists _, _. split; [reflexivity|]. split; [reflexivity|].
  split; [reflexivity|]. split; [eassumption|reflexivity].
Qed.

(** X14: an attach never leaks an output buffer: on every path, failed or
    not, the buffers freed are exactly the buffers allocated, in order. *)
Theorem probe_frees_buffers
    (hdev : Z) (driver_data : device_config) (env : oracle) :
  freed (fst (run (nzxt_grid_probe hdev driver_data) env 0)) =
    allocated (fst (run (nzxt_grid_probe hdev driver_data) env 0)).
Proof.
  destruct (run (nzxt_grid_probe hdev driver_data) env 0) as [tr [ret dev]] eqn:Hrun.
  probe_paths Hrun.
  all: injection Hrun as <- <- <-.
  all: cbn -[output_buffer]; use_answers; reflexivity.
Qed.

(** X15: detaching a device that was attached successfully unregisters the
    sensor surface it got and then releases what the attach acquired, in
    reverse order: close the input stream, stop the transport. *)
Theorem remove_undoes_probe
    (hdev : Z) (driver_data : device_config) (env env' : oracle) (n : nat)
    (tr : list event) (dev : nzxt_grid_device) :
  run (nzxt_grid_probe hdev driver_data) env 0 = (tr, (0, Some dev)) ->
  map fst (fst (run (nzxt_grid_remove dev) env' n)) =
    hwmon_device_unregister (hwmon dev) :: unwinding tr
  /\ last tr =
       Some (hwmon_device_register_with_info "nzxtgrid"
               (nzxt_grid_device_configs driver_data), hwmon dev).
Proof.
  intros Hrun. name_result Hrun ret Hret. probe_paths Hrun.
  all: try discriminate Hrun.
  all: injection Hrun as <- <- <-.
  all: try solve [exfalso; ret_nonzero].
  unfold unwinding. cbn -[output_buffer]. use_answers. split; reflexivity.
Qed.

(** X16: whatever happens during an attach, the transport sees nothing but
    the two handshake commands, each at most once and never out of order:
    no submission, or detect-fans alone, or detect-fans then
    start-reporting. *)
Theorem probe_submissions_prefix
    (hdev : Z) (driver_data : device_config) (env : oracle) :
  submissions (fst (run (nzxt_grid_probe hdev driver_data) env 0)) = []
  \/ submissions (fst (run (nzxt_grid_probe hdev driver_data) env 0)) =
       [[0x02; 0x5C] ++ replicate 63 0]
  \/ submissions (fst (run (nzxt_grid_probe hdev driver_data) env 0)) =
       [[0x02; 0x5C] ++ replicate 63 0; [0x02; 0x5D] ++ replicate 63 0].
Proof.
  destruct (run (nzxt_grid_probe hdev driver_data) env 0) as [tr [ret dev]] eqn:Hrun.
  probe_paths Hrun.
  all: injection Hrun as <- <- <-.
  all: try solve [exfalso; Z_answers; lia].
  all: rewrite <- !output_buffer_command.
  all: cbn -[output_buffer]; auto.
Qed.

(** X21: an attach talks to the device only once the transport is up: if
    anything at all was submitted, then the device instance was allocated,
    the descriptors were parsed, the transport was started and opened, all
    with success, and input was enabled, before the first submission. *)
Theorem probe_submits_after_open
    (hdev : Z) (driver_data : device_config) (env : oracle) :
  submissions (fst (run (nzxt_grid_probe hdev driver_data) env 0)) <> [] ->
  exists grid answer : Z,
    grid <> 0
    /\ take 5 (fst (run (nzxt_grid_probe hdev driver_data) env 0)) =
         [ (devm_kzalloc, grid); (hid_parse, 0);
           (hid_hw_start HID_CONNECT_HIDRAW, 0); (hid_hw_open, 0);
           (hid_device_io_start, answer) ]
    /\ submissions (take 5 (fst (run (nzxt_grid_probe hdev driver_data) env 0))) = [].
Proof.
  destruct (run (nzxt_grid_probe hdev driver_data) env 0) as [tr [ret dev]] eqn:Hrun.
  probe_paths Hrun.
  all: injection Hrun as <- <- <-.
  all: try solve [exfalso; Z_answers; lia].
  all: cbn -[output_buffer].
  all: intros Hsub; try contradiction.
  all: Z_answers.
  all: repeat match goal with E : _ = 0 |- _ => rewrite E end.
  all: eexists _, _; (split; [|split; reflexivity]); assumption.
Qed.

(** ** More on the duty mapping *)

(** X17: every percentage can be commanded: for each duty d from 0 to 100
    some input on the 0..255 scale maps to exactly d. *)
Theorem pwm_to_percent_onto (d : Z) :
  0 <= d <= 100 ->
  exists v, 0 <= v <= 255 /\ nzxt_grid_pwm_to_percent v = d.
Proof.
  intros Hd. destruct (Z.eq_dec d 100) as [->|Hne].
  - exists 255. split; [lia|reflexivity].
  - exists ((d * 255 + 99) / 100).
    assert (Hv : 0 <= (d * 255 + 99) / 100 < 255).
    { split; [apply Z.div_pos; lia|apply Z.div_lt_upper_bound; lia]. }
    split; [lia|]. rewrite pwm_to_percent_mid by lia.
    pose proof (Z.div_mod (d * 255 + 99) 100 ltac:(lia)) as Hdm.
    pose proof (Z.mod_pos_bound (d * 255 + 99) 100 ltac:(lia)) as Hmod.
    symmetry. apply Z.div_unique with
      (r := (d * 255 + 99) / 100 * 100 - 255 * d); lia.
Qed.

(** X18: the ends of the scale.  The duty is 0 exactly for inputs up to 2
    (1 and 2 still round down to a stopped fan), and it is 100 exactly for
    inputs from 255 on. *)
Theorem pwm_to_percent_ends (v : Z) :
  (nzxt_grid_pwm_to_percent v = 0 <-> v <= 2)
  /\ (nzxt_grid_pwm_to_percent v = 100 <-> 255 <= v).
Proof.
  destruct (Z.le_gt_cases v 0) as [Hlow|Hpos].
  { rewrite (pwm_to_percent_low v Hlow). split; split; lia. }
  destruct (Z.le_gt_cases 255 v) as [Hhigh|Hmid].
  { rewrite (pwm_to_percent_high v Hhigh). split; split; lia. }
  rewrite pwm_to_percent_mid by lia.
  assert (Hlt : v * 100 / 255 < 100) by (apply Z.div_lt_upper_bound; lia).
  split; split; intros H; try lia.
  - destruct (Z.le_gt_cases v 2) as [?|Hbig]; [assumption|].
    assert (1 <= v * 100 / 255) by (apply Z.div_le_lower_bound; lia). lia.
  - apply Z.div_small. lia.
Qed.

(** ** The advertised sensor surface *)

Lemma run_write_pwm_input_nonempty channel val env n :
  fst (run (nzxt_grid_hwmon_write_pwm_input channel val) env n) <> [].
Proof.
  unfold nzxt_grid_hwmon_write_pwm_input. rewrite run_send_output_report.
  cbv zeta. destruct (env n (kzalloc 65) =? 0); discriminate.
Qed.

(** X19: the permissions agree with the write callback: an attribute is
    announced read-only exactly when a write to it is turned down with
    invalid-argument before any kernel call, and writable exactly when it is
    pwm.input of kind pwm. *)
Theorem is_visible_matches_write
    (ty : hwmon_sensor_types) (attr channel val : Z) (env : oracle) (n : nat) :
  S_IWUSR <> S_IRUGO ->
  (nzxt_grid_is_visible ty attr channel = S_IRUGO <->
   run (nzxt_grid_hwmon_write ty attr channel val) env n = ([], - EINVAL))
  /\ (nzxt_grid_is_visible ty attr channel = S_IWUSR <->
      ty = hwmon_pwm /\ attr = hwmon_pwm_input).
Proof.
  intros Hperm.
  destruct (hwmon_write_dec ty attr) as [[-> ->]|Hno].
  - unfold nzxt_grid_is_visible. rewrite Z.eqb_refl. cbn [andb].
    rewrite hwmon_write_pwm_input_eq. split; split; intros H.
    + exfalso. apply Hperm. exact H.
    + exfalso. apply (run_write_pwm_input_nonempty channel val env n).
      rewrite H. reflexivity.
    + split; reflexivity.
    + reflexivity.
  - rewrite (hwmon_write_other ty attr channel val env n Hno).
    assert (Hvis : nzxt_grid_is_visible ty attr channel = S_IRUGO).
    { unfold nzxt_grid_is_visible.
      destruct ty; cbn [andb]; try reflexivity.
      destruct (Z.eqb_spec attr hwmon_pwm_input) as [->|_]; [|reflexivity].
      exfalso. apply Hno. split; reflexivity. }
    rewrite Hvis. split; split; intros H.
    + reflexivity.
    + reflexivity.
    + exfalso. apply Hperm. symmetry. exact H.
    + contradiction.
Qed.

(** X20: every channel either chip advertises lies inside the cache.  Each
    row of a chip's channel table is of kind fan, pwm, in or curr and lists
    as many channels as the chip exposes, six or three, and on a six-slot
    cache every index below that number addresses an entry. *)
Theorem advertised_channels_in_cache
    (chip : hwmon_chip_info) (ty : hwmon_sensor_types) (configs : list Z)
    (grid : nzxt_grid_device) (index : Z) :
  In (ty, configs) (chip_channel_info chip) ->
  well_formed grid ->
  0 <= index < Z.of_nat (length configs) ->
  (ty = hwmon_fan \/ ty = hwmon_pwm \/ ty = hwmon_in \/ ty = hwmon_curr)
  /\ length configs = exposed_channels chip
  /\ (exposed_channels chip <= Z.to_nat NZXT_GRID_MAX_CHANNELS)%nat
  /\ is_Some (channel_at grid index).
Proof.
  intros Hin Hwf Hidx.
  assert (Hrow : (ty = hwmon_fan \/ ty = hwmon_pwm \/ ty = hwmon_in \/ ty = hwmon_curr)
                 /\ length configs = exposed_channels chip).
  { destruct chip; cbn in Hin;
      repeat (destruct Hin as [Hin|Hin];
              [injection Hin as <- <-; split; [tauto|reflexivity]|]);
      contradiction. }
  destruct Hrow as [Hty Hlen].
  assert (Hmax : (exposed_channels chip <= Z.to_nat NZXT_GRID_MAX_CHANNELS)%nat).
  { change (Z.to_nat NZXT_GRID_MAX_CHANNELS) with 6%nat.
    destruct chip; cbn [exposed_channels]; lia. }
  split; [exact Hty|]. split; [exact Hlen|]. split; [exact Hmax|].
  unfold channel_at. destruct (Z.ltb_spec index 0) as [?|_]; [lia|].
  apply lookup_lt_is_Some. unfold well_formed in Hwf. rewrite Hwf. lia.
Qed.

End Driver.

(** * The driver under the kernel's values, on sample traffic *)

Lemma linux_PTR_ERR_range (p : Z) :
  Linux.IS_ERR p = true -> -4095 <= Linux.PTR_ERR p < 0.
Proof.
  unfold Linux.IS_ERR, Linux.PTR_ERR, Linux.MAX_ERRNO, long, wrap_signed.
  intros H. apply andb_true_iff in H as [Hlo Hhi].
  apply Z.leb_le in Hlo. apply Z.ltb_lt in Hhi.
  replace (p + 2 ^ (64 - 1)) with (p - 2 ^ 63 + 1 * 2 ^ 64) by lia.
  rewrite Z.mod_add by lia. rewrite Z.mod_small by lia. lia.
Qed.

Lemma sample_report_bytes : bytes Sample.report.
Proof.
  unfold bytes, Sample.report.
  repeat (constructor; [unfold is_u8; lia|]). constructor.
Defined.

Lemma status_report_decode_witness :
  length Sample.report = 21%nat
  /\ bytes Sample.report
  /\ nzxt_grid_get_channel_index Sample.report = 1
  /\ type (status_of_report Sample.report) = nzxt_grid_fan_pwm
  /\ speed_rpm (status_of_report Sample.report) = 1500
  /\ in_millivolt (status_of_report Sample.report) = 12100
  /\ curr_milliamp (status_of_report Sample.report) = 1500.
Proof.
  split; [reflexivity|]. split; [exact sample_report_bytes|].
  exact (status_report_decode Sample.report eq_refl sample_report_bytes).
Defined.

Lemma pwm_to_percent_spec_witness :
  0 < 128 < 255 /\ nzxt_grid_pwm_to_percent 128 = Z.quot (128 * 100) 255.
Proof.
  split; [lia|].
  apply (proj1 (proj2 (proj2 (proj2 (pwm_to_percent_spec 128))))). lia.
Defined.

Lemma set_fan_speed_command_witness :
  0 <= 2 < 256
  /\ nzxt_grid_pwm_to_percent 128 = 50
  /\ Sample.env_ok 0%nat (kzalloc NZXT_GRID_OUTPUT_REPORT_SIZE) <> 0
  /\ submissions
       (fst (run (nzxt_grid_hwmon_write_pwm_input Linux.ENOMEM 2 128)
               Sample.env_ok 0)) =
       [[0x02; 0x4D; 0x02; 0x00; 0x32] ++ replicate 60 0].
Proof.
  assert (Hc : 0 <= 2 < 256) by lia.
  assert (Halloc : Sample.env_ok 0%nat (kzalloc NZXT_GRID_OUTPUT_REPORT_SIZE) <> 0)
    by discriminate.
  split; [exact Hc|]. split; [reflexivity|]. split; [exact Halloc|].
  exact (proj1 (proj2 (set_fan_speed_command Linux.ENOMEM 2 50 128
                         Sample.env_ok 0 Hc eq_refl Halloc))).
Defined.

Lemma raw_event_rejects_witness :
  length Sample.report_channel_6 = 21%nat
  /\ 6 <= nzxt_grid_get_channel_index Sample.report_channel_6
  /\ on_raw_event zero_device Sample.report_channel_6 = (zero_device, 0).
Proof.
  assert (Hidx : 6 <= nzxt_grid_get_channel_index Sample.report_channel_6)
    by (vm_compute; discriminate).
  split; [reflexivity|]. split; [exact Hidx|].
  apply raw_event_rejects. right. split; [reflexivity|exact Hidx].
Defined.

Lemma raw_event_applies_witness :
  well_formed zero_device
  /\ Z.shiftr (nth 15 Sample.report 0) 4 = 1
  /\ channel (fst (on_raw_event zero_device Sample.report)) !! 1%nat =
       Some {| type := nzxt_grid_fan_pwm; speed_rpm := 1500;
               in_millivolt := 12100; curr_milliamp := 1500 |}
  /\ channel (fst (on_raw_event zero_device Sample.report)) !! 2%nat =
       Some zero_status.
Proof.
  assert (Hc : (1 < 6)%nat) by lia.
  pose proof (raw_event_applies zero_device Sample.report 1 eq_refl eq_refl
                sample_report_bytes eq_refl Hc) as [Hentry [Hframe _]].
  split; [reflexivity|]. split; [reflexivity|]. split; [exact Hentry|].
  rewrite (Hframe 2%nat) by discriminate. reflexivity.
Defined.

Lemma raw_event_report_id_irrelevant_witness :
  length Sample.report = 21%nat
  /\ on_raw_event zero_device (<[0%nat := 0]> Sample.report) =
       on_raw_event zero_device Sample.report.
Proof.
  split; [reflexivity|].
  apply raw_event_report_id_irrelevant. reflexivity.
Defined.


Lemma hwmon_read_spec_witness :
  0 <= 1
  /\ channel (fst (on_raw_event zero_device Sample.report)) !! Z.to_nat 1 =
       Some {| type := nzxt_grid_fan_pwm; speed_rpm := 1500;
               in_millivolt := 12100; curr_milliamp := 1500 |}
  /\ nzxt_grid_hwmon_read Linux.hwmon_fan_input Linux.hwmon_pwm_mode
       Linux.hwmon_in_input Linux.hwmon_curr_input Linux.EINVAL
       (fst (on_raw_event zero_device Sample.report))
       hwmon_pwm Linux.hwmon_pwm_mode 1 0 = Some (0, 1)
  /\ nzxt_grid_hwmon_read Linux.hwmon_fan_input Linux.hwmon_pwm_mode
       Linux.hwmon_in_input Linux.hwmon_curr_input Linux.EINVAL
       (fst (on_raw_event zero_device Sample.report))
       hwmon_pwm Linux.hwmon_pwm_input 1 0 = Some (- Linux.EINVAL, 0).
Proof.
  assert (Hidx : 0 <= 1) by lia.
  pose proof (hwmon_read_spec Linux.hwmon_fan_input Linux.hwmon_pwm_mode
                Linux.hwmon_in_input Linux.hwmon_curr_input Linux.EINVAL
                (fst (on_raw_event zero_device Sample.report)) 1 0 _
                Hidx eq_refl) as (_ & Hmode & _ & _ & Hother).
  split; [exact Hidx|]. split; [reflexivity|]. split; [exact Hmode|].
  apply Hother; intros [Hty Hattr]; discriminate.
Defined.

Lemma hwmon_write_only_pwm_input_witness :
  ~ (hwmon_fan = hwmon_pwm /\ Linux.hwmon_fan_input = Linux.hwmon_pwm_input)
  /\ run (nzxt_grid_hwmon_write Linux.hwmon_pwm_input Linux.EINVAL Linux.ENOMEM
            hwmon_fan Linux.hwmon_fan_input 2 128) Sample.env_ok 0 =
       ([], - Linux.EINVAL).
Proof.
  assert (Hne : ~ (hwmon_fan = hwmon_pwm
                   /\ Linux.hwmon_fan_input = Linux.hwmon_pwm_input))
    by (intros [Hty _]; discriminate).
  split; [exact Hne|].
  exact (proj2 (hwmon_write_only_pwm_input Linux.hwmon_pwm_input Linux.EINVAL
                  Linux.ENOMEM hwmon_fan Linux.hwmon_fan_input 2 128
                  Sample.env_ok 0) Hne).
Defined.

Lemma write_channel_unchecked_witness :
  Sample.env_ok 0%nat (kzalloc NZXT_GRID_OUTPUT_REPORT_SIZE) <> 0
  /\ submissions
       (fst (run (nzxt_grid_hwmon_write Linux.hwmon_pwm_input Linux.EINVAL
                    Linux.ENOMEM hwmon_pwm Linux.hwmon_pwm_input (-1) 1000)
               Sample.env_ok 0)) =
       [[0x02; 0x4D; 0xFF; 0x00; 0x64] ++ replicate 60 0].
Proof.
  assert (Halloc : Sample.env_ok 0%nat (kzalloc NZXT_GRID_OUTPUT_REPORT_SIZE) <> 0)
    by discriminate.
  split; [exact Halloc|].
  exact (proj1 (write_channel_unchecked Linux.hwmon_pwm_input Linux.EINVAL
                  Linux.ENOMEM (-1) 1000 Sample.env_ok 0 Halloc)).
Defined.

Lemma probe_handshake_witness :
  Linux.ENOMEM <> 0
  /\ (forall p, Linux.IS_ERR p = true -> -4095 <= Linux.PTR_ERR p < 0)
  /\ fst (snd (run (nzxt_grid_probe Linux.ENOMEM Linux.HID_CONNECT_HIDRAW
                      Linux.IS_ERR Linux.PTR_ERR 1
                      nzxt_grid_device_config_grid_v3) Sample.env_ok 0)) = 0
  /\ submissions
       (fst (run (nzxt_grid_probe Linux.ENOMEM Linux.HID_CONNECT_HIDRAW
                    Linux.IS_ERR Linux.PTR_ERR 1
                    nzxt_grid_device_config_grid_v3) Sample.env_ok 0)) =
       [[0x02; 0x5C] ++ replicate 63 0; [0x02; 0x5D] ++ replicate 63 0].
Proof.
  assert (Hnomem : Linux.ENOMEM <> 0) by discriminate.
  split; [exact Hnomem|]. split; [exact linux_PTR_ERR_range|].
  split; [reflexivity|].
  destruct (probe_handshake Linux.ENOMEM Linux.HID_CONNECT_HIDRAW
              Linux.IS_ERR Linux.PTR_ERR Hnomem linux_PTR_ERR_range
              1 nzxt_grid_device_config_grid_v3 Sample.env_ok _ _ _ eq_refl)
    as [Hok _].
  destruct (Hok eq_refl) as (buffer1 & buffer2 & _ & Hsub & _).
  exact Hsub.
Defined.

(** ** Scenarios of the specification, run on the model *)

Example duty_clamp :
  map nzxt_grid_pwm_to_percent [-1; 0; 128; 254; 255; 1000] = [0; 0; 50; 99; 100; 100].
Proof. reflexivity. Qed.

Example fan_type_unknown :
  on_raw_event zero_device (<[15%nat := 0x13]> Sample.report) =
    (set_channel zero_device 1
       {| type := nzxt_grid_fan_none; speed_rpm := 1500;
          in_millivolt := 12100; curr_milliamp := 1500 |}, 0).
Proof. reflexivity. Qed.

Example attach_second_submission_refused :
  run (nzxt_grid_probe Linux.ENOMEM Linux.HID_CONNECT_HIDRAW Linux.IS_ERR
         Linux.PTR_ERR 1 nzxt_grid_device_config_smart_device_v1)
      Sample.env_submit_fails 0 =
    ([ (devm_kzalloc, 0x1000); (hid_parse, 0);
       (hid_hw_start Linux.HID_CONNECT_HIDRAW, 0); (hid_hw_open, 0);
       (hid_device_io_start, 0);
       (kzalloc 65, 0x2000);
       (hid_hw_output_report ([0x02; 0x5C] ++ replicate 63 0) 65, 65);
       (kfree 0x2000, 0);
       (kzalloc 65, 0x2000);
       (hid_hw_output_report ([0x02; 0x5D] ++ replicate 63 0) 65, -5);
       (kfree 0x2000, 0);
       (hid_hw_close, 0); (hid_hw_stop, 0) ],
     (-5, Some {| hid := 1; hwmon := 0; channel := channel zero_device |})).
Proof. reflexivity. Qed.

Example attach_registration_refused :
  let env : oracle :=
    fun n c => if (n =? 11)%nat then 2 ^ 64 - 19 else Sample.env_ok n c in
  map fst (drop 11 (fst (run (nzxt_grid_probe Linux.ENOMEM Linux.HID_CONNECT_HIDRAW
                               Linux.IS_ERR Linux.PTR_ERR 1
                               nzxt_grid_device_config_grid_v3) env 0))) =
    [ hwmon_device_register_with_info "nzxtgrid" nzxt_grid_v3_chip_info;
      hid_hw_close; hid_hw_stop ]
  /\ fst (snd (run (nzxt_grid_probe Linux.ENOMEM Linux.HID_CONNECT_HIDRAW
                      Linux.IS_ERR Linux.PTR_ERR 1
                      nzxt_grid_device_config_grid_v3) env 0)) = -19.
Proof. split; reflexivity. Qed.

(** * Further properties, on sample traffic *)

Lemma raw_event_stores_in_range_witness :
  bytes Sample.report
  /\ channel (fst (nzxt_grid_raw_event zero_device Sample.report 21)) !! 1%nat =
       Some (status_of_report Sample.report)
  /\ 0 <= speed_rpm (status_of_report Sample.report) <= 65535.
Proof.
  split; [exact sample_report_bytes|]. split; [reflexivity|].
  destruct (raw_event_stores_in_range zero_device Sample.report 21 1
              (status_of_report Sample.report) sample_report_bytes eq_refl)
    as [Hold|(_ & Hspeed & _)].
  - discriminate Hold.
  - exact Hspeed.
Defined.

Lemma raw_event_overwrites_witness :
  nzxt_grid_get_channel_index Sample.report =
    nzxt_grid_get_channel_index (<[3%nat := 0]> Sample.report)
  /\ fst (nzxt_grid_raw_event
            (fst (nzxt_grid_raw_event zero_device Sample.report 21))
            (<[3%nat := 0]> Sample.report) 21) =
       fst (nzxt_grid_raw_event zero_device (<[3%nat := 0]> Sample.report) 21).
Proof.
  assert (Hidx : nzxt_grid_get_channel_index Sample.report =
                 nzxt_grid_get_channel_index (<[3%nat := 0]> Sample.report))
    by reflexivity.
  split; [exact Hidx|].
  exact (raw_event_overwrites zero_device Sample.report
           (<[3%nat := 0]> Sample.report) 21 Hidx).
Defined.

Lemma raw_event_commutes_witness :
  nzxt_grid_get_channel_index Sample.report <>
    nzxt_grid_get_channel_index (<[15%nat := 0x21]> Sample.report)
  /\ fst (nzxt_grid_raw_event
            (fst (nzxt_grid_raw_event zero_device Sample.report 21))
            (<[15%nat := 0x21]> Sample.report) 21) =
       fst (nzxt_grid_raw_event
              (fst (nzxt_grid_raw_event zero_device
                      (<[15%nat := 0x21]> Sample.report) 21))
              Sample.report 21).
Proof.
  assert (Hne : nzxt_grid_get_channel_index Sample.report <>
                nzxt_grid_get_channel_index (<[15%nat := 0x21]> Sample.report))
    by discriminate.
  split; [exact Hne|].
  exact (raw_event_commutes zero_device Sample.report
           (<[15%nat := 0x21]> Sample.report) 21 21 Hne).
Defined.

Lemma raw_event_reads_seven_octets_witness :
  length Sample.report = 21%nat
  /\ length Sample.report_id_0 = 21%nat
  /\ on_raw_event zero_device Sample.report =
       on_raw_event zero_device Sample.report_id_0.
Proof.
  split; [reflexivity|]. split; [reflexivity|].
  apply raw_event_reads_seven_octets; [reflexivity|reflexivity|].
  repeat (constructor; [reflexivity|]). constructor.
Defined.

Lemma read_after_raw_event_witness :
  well_formed zero_device
  /\ nzxt_grid_hwmon_read Linux.hwmon_fan_input Linux.hwmon_pwm_mode
       Linux.hwmon_in_input Linux.hwmon_curr_input Linux.EINVAL
       (fst (on_raw_event zero_device Sample.report))
       hwmon_fan Linux.hwmon_fan_input 1 0 = Some (0, 1500).
Proof.
  assert (Hc : (1 < 6)%nat) by lia.
  split; [reflexivity|].
  exact (proj1 (read_after_raw_event Linux.hwmon_fan_input Linux.hwmon_pwm_mode
                  Linux.hwmon_in_input Linux.hwmon_curr_input Linux.EINVAL
                  zero_device Sample.report 1 0 eq_refl eq_refl
                  sample_report_bytes eq_refl Hc)).
Defined.

Lemma read_other_channel_after_raw_event_witness :
  2 <> nzxt_grid_get_channel_index Sample.report
  /\ nzxt_grid_hwmon_read Linux.hwmon_fan_input Linux.hwmon_pwm_mode
       Linux.hwmon_in_input Linux.hwmon_curr_input Linux.EINVAL
       (fst (nzxt_grid_raw_event zero_device Sample.report 21))
       hwmon_fan Linux.hwmon_fan_input 2 0 =
     nzxt_grid_hwmon_read Linux.hwmon_fan_input Linux.hwmon_pwm_mode
       Linux.hwmon_in_input Linux.hwmon_curr_input Linux.EINVAL
       zero_device hwmon_fan Linux.hwmon_fan_input 2 0.
Proof.
  assert (Hne : 2 <> nzxt_grid_get_channel_index Sample.report) by discriminate.
  split; [exact Hne|].
  exact (read_other_channel_after_raw_event Linux.hwmon_fan_input
           Linux.hwmon_pwm_mode Linux.hwmon_in_input Linux.hwmon_curr_input
           Linux.EINVAL zero_device Sample.report 21 hwmon_fan
           Linux.hwmon_fan_input 2 0 Hne).
Defined.

Lemma output_buffer_padding_witness :
  (2 <= length [0x02; 0x5C])%nat
  /\ (2 <= 65)%nat
  /\ length (output_buffer [0x02; 0x5C] 2) = 65%nat
  /\ drop 2 (output_buffer [0x02; 0x5C] 2) = replicate 63 0.
Proof.
  assert (H1 : (2 <= length [0x02; 0x5C])%nat) by (cbn; lia).
  assert (H2 : (2 <= 65)%nat) by lia.
  destruct (output_buffer_padding [0x02; 0x5C] 2 H1 H2) as (Hlen & _ & Hdrop).
  split; [exact H1|]. split; [exact H2|]. split; [exact Hlen|exact Hdrop].
Defined.

Lemma hwmon_write_out_of_memory_witness :
  (fun (_ : nat) (_ : call) => 0) 0%nat (kzalloc NZXT_GRID_OUTPUT_REPORT_SIZE) = 0
  /\ run (nzxt_grid_hwmon_write Linux.hwmon_pwm_input Linux.EINVAL Linux.ENOMEM
            hwmon_pwm Linux.hwmon_pwm_input 2 128) (fun _ _ => 0) 0 =
       ([(kzalloc 65, 0)], - Linux.ENOMEM).
Proof.
  split; [reflexivity|].
  exact (proj1 (hwmon_write_out_of_memory Linux.hwmon_pwm_input Linux.EINVAL
                  Linux.ENOMEM 2 128 (fun _ _ => 0) 0 eq_refl)).
Defined.

Lemma hwmon_write_success_witness :
  Linux.ENOMEM <> 0
  /\ Linux.EINVAL <> 0
  /\ snd (run (nzxt_grid_hwmon_write Linux.hwmon_pwm_input Linux.EINVAL
                 Linux.ENOMEM hwmon_pwm Linux.hwmon_pwm_input 2 128)
            Sample.env_ok 0) = 0
  /\ submissions
       (fst (run (nzxt_grid_hwmon_write Linux.hwmon_pwm_input Linux.EINVAL
                    Linux.ENOMEM hwmon_pwm Linux.hwmon_pwm_input 2 128)
               Sample.env_ok 0)) =
       [[0x02; 0x4D; 0x02; 0x00; 0x32] ++ replicate 60 0].
Proof.
  assert (Hnomem : Linux.ENOMEM <> 0) by discriminate.
  assert (Hinval : Linux.EINVAL <> 0) by discriminate.
  split; [exact Hnomem|]. split; [exact Hinval|]. split; [reflexivity|].
  destruct (hwmon_write_success Linux.hwmon_pwm_input Linux.EINVAL Linux.ENOMEM
              Hnomem hwmon_pwm Linux.hwmon_pwm_input 2 128 Sample.env_ok 0
              Hinval eq_refl) as (_ & _ & Hsub & _).
  exact Hsub.
Defined.

Lemma probe_success_device_witness :
  Linux.ENOMEM <> 0
  /\ (forall p, Linux.IS_ERR p = true -> -4095 <= Linux.PTR_ERR p < 0)
  /\ fst (snd (run (nzxt_grid_probe Linux.ENOMEM Linux.HID_CONNECT_HIDRAW
                      Linux.IS_ERR Linux.PTR_ERR 7
                      nzxt_grid_device_config_smart_device_v1) Sample.env_ok 0)) = 0
  /\ exists grid : nzxt_grid_device,
       snd (snd (run (nzxt_grid_probe Linux.ENOMEM Linux.HID_CONNECT_HIDRAW
                        Linux.IS_ERR Linux.PTR_ERR 7
                        nzxt_grid_device_config_smart_device_v1)
                   Sample.env_ok 0)) = Some grid
       /\ hid grid = 7
       /\ hwmon grid = 0x3000
       /\ Linux.IS_ERR (hwmon grid) = false.
Proof.
  assert (Hnomem : Linux.ENOMEM <> 0) by discriminate.
  split; [exact Hnomem|]. split; [exact linux_PTR_ERR_range|].
  split; [reflexivity|].
  destruct (probe_success_device Linux.ENOMEM Linux.HID_CONNECT_HIDRAW
              Linux.IS_ERR Linux.PTR_ERR Hnomem linux_PTR_ERR_range
              7 nzxt_grid_device_config_smart_device_v1 Sample.env_ok
              _ _ eq_refl) as (grid & handle & Hdev & Hhid & Hhwmon & Herr & _).
  exists grid. split; [exact Hdev|]. split; [exact Hhid|].
  injection Hdev as <-. split; reflexivity.
Defined.

Lemma remove_undoes_probe_witness :
  Linux.ENOMEM <> 0
  /\ (forall p, Linux.IS_ERR p = true -> -4095 <= Linux.PTR_ERR p < 0)
  /\ snd (run (nzxt_grid_probe Linux.ENOMEM Linux.HID_CONNECT_HIDRAW
                 Linux.IS_ERR Linux.PTR_ERR 1
                 nzxt_grid_device_config_grid_v3) Sample.env_ok 0) =
       (0, Some {| hid := 1; hwmon := 0x3000;
                   channel := replicate 6 zero_status |})
  /\ map fst
       (fst (run (nzxt_grid_remove
                    {| hid := 1; hwmon := 0x3000;
                       channel := replicate 6 zero_status |})
               Sample.env_ok 0)) =
       [hwmon_device_unregister 0x3000; hid_hw_close; hid_hw_stop].
Proof.
  assert (Hnomem : Linux.ENOMEM <> 0) by discriminate.
  split; [exact Hnomem|]. split; [exact linux_PTR_ERR_range|].
  split; [reflexivity|].
  exact (proj1 (remove_undoes_probe Linux.ENOMEM Linux.HID_CONNECT_HIDRAW
                  Linux.IS_ERR Linux.PTR_ERR Hnomem linux_PTR_ERR_range
                  1 nzxt_grid_device_config_grid_v3 Sample.env_ok Sample.env_ok 0
                  _ _ eq_refl)).
Defined.

Lemma probe_submissions_prefix_witness :
  Linux.ENOMEM <> 0
  /\ (submissions
        (fst (run (nzxt_grid_probe Linux.ENOMEM Linux.HID_CONNECT_HIDRAW
                     Linux.IS_ERR Linux.PTR_ERR 1
                     nzxt_grid_device_config_grid_v3) Sample.env_submit_fails 0))
      = []
      \/ submissions
           (fst (run (nzxt_grid_probe Linux.ENOMEM Linux.HID_CONNECT_HIDRAW
                        Linux.IS_ERR Linux.PTR_ERR 1
                        nzxt_grid_device_config_grid_v3) Sample.env_submit_fails 0))
         = [[0x02; 0x5C] ++ replicate 63 0]
      \/ submissions
           (fst (run (nzxt_grid_probe Linux.ENOMEM Linux.HID_CONNECT_HIDRAW
                        Linux.IS_ERR Linux.PTR_ERR 1
                        nzxt_grid_device_config_grid_v3) Sample.env_submit_fails 0))
         = [[0x02; 0x5C] ++ replicate 63 0; [0x02; 0x5D] ++ replicate 63 0]).
Proof.
  assert (Hnomem : Linux.ENOMEM <> 0) by discriminate.
  split; [exact Hnomem|].
  exact (probe_submissions_prefix Linux.ENOMEM Linux.HID_CONNECT_HIDRAW
           Linux.IS_ERR Linux.PTR_ERR Hnomem 1 nzxt_grid_device_config_grid_v3
           Sample.env_submit_fails).
Defined.

Lemma probe_submits_after_open_witness :
  Linux.ENOMEM <> 0
  /\ submissions
       (fst (run (nzxt_grid_probe Linux.ENOMEM Linux.HID_CONNECT_HIDRAW
                    Linux.IS_ERR Linux.PTR_ERR 1
                    nzxt_grid_device_config_grid_v3) Sample.env_ok 0)) <> []
  /\ exists grid answer : Z,
       grid <> 0
       /\ take 5
            (fst (run (nzxt_grid_probe Linux.ENOMEM Linux.HID_CONNECT_HIDRAW
                         Linux.IS_ERR Linux.PTR_ERR 1
                         nzxt_grid_device_config_grid_v3) Sample.env_ok 0)) =
            [ (devm_kzalloc, grid); (hid_parse, 0);
              (hid_hw_start Linux.HID_CONNECT_HIDRAW, 0); (hid_hw_open, 0);
              (hid_device_io_start, answer) ].
Proof.
  assert (Hnomem : Linux.ENOMEM <> 0) by discriminate.
  assert (Hsub : submissions
                   (fst (run (nzxt_grid_probe Linux.ENOMEM Linux.HID_CONNECT_HIDRAW
                                Linux.IS_ERR Linux.PTR_ERR 1
                                nzxt_grid_device_config_grid_v3) Sample.env_ok 0))
                 <> []) by discriminate.
  split; [exact Hnomem|]. split; [exact Hsub|].
  destruct (probe_submits_after_open Linux.ENOMEM Linux.HID_CONNECT_HIDRAW
              Linux.IS_ERR Linux.PTR_ERR Hnomem 1 nzxt_grid_device_config_grid_v3
              Sample.env_ok Hsub) as (grid & answer & Hgrid & Htake & _).
  exists grid, answer. split; [exact Hgrid|exact Htake].
Defined.

Lemma pwm_to_percent_onto_witness :
  0 <= 50 <= 100
  /\ exists v, 0 <= v <= 255 /\ nzxt_grid_pwm_to_percent v = 50.
Proof.
  assert (Hd : 0 <= 50 <= 100) by lia.
  split; [exact Hd|]. exact (pwm_to_percent_onto 50 Hd).
Defined.

Lemma is_visible_matches_write_witness :
  Linux.S_IWUSR <> Linux.S_IRUGO
  /\ (nzxt_grid_is_visible Linux.hwmon_pwm_input Linux.S_IWUSR Linux.S_IRUGO
        hwmon_pwm Linux.hwmon_pwm_mode 0 = Linux.S_IRUGO <->
      run (nzxt_grid_hwmon_write Linux.hwmon_pwm_input Linux.EINVAL Linux.ENOMEM
             hwmon_pwm Linux.hwmon_pwm_mode 0 128) Sample.env_ok 0 =
        ([], - Linux.EINVAL)).
Proof.
  assert (Hperm : Linux.S_IWUSR <> Linux.S_IRUGO) by discriminate.
  split; [exact Hperm|].
  exact (proj1 (is_visible_matches_write Linux.hwmon_pwm_input Linux.EINVAL
                  Linux.ENOMEM Linux.S_IWUSR Linux.S_IRUGO hwmon_pwm
                  Linux.hwmon_pwm_mode 0 128 Sample.env_ok 0 Hperm)).
Defined.

Lemma advertised_channels_in_cache_witness :
  In (hwmon_in, [ Linux.HWMON_I_INPUT; Linux.HWMON_I_INPUT; Linux.HWMON_I_INPUT ])
     (chip_channel_info Linux.HWMON_F_INPUT Linux.HWMON_PWM_MODE
        Linux.HWMON_PWM_INPUT Linux.HWMON_I_INPUT Linux.HWMON_C_INPUT
        nzxt_smart_device_v1_chip_info)
  /\ well_formed zero_device
  /\ 0 <= 2 < Z.of_nat (length [ Linux.HWMON_I_INPUT; Linux.HWMON_I_INPUT;
                                 Linux.HWMON_I_INPUT ])
  /\ is_Some (channel_at zero_device 2).
Proof.
  assert (Hin : In (hwmon_in, [ Linux.HWMON_I_INPUT; Linux.HWMON_I_INPUT;
                                Linux.HWMON_I_INPUT ])
                  (chip_channel_info Linux.HWMON_F_INPUT Linux.HWMON_PWM_MODE
                     Linux.HWMON_PWM_INPUT Linux.HWMON_I_INPUT Linux.HWMON_C_INPUT
                     nzxt_smart_device_v1_chip_info))
    by (right; right; left; reflexivity).
  assert (Hidx : 0 <= 2 < Z.of_nat (length [ Linux.HWMON_I_INPUT;
                                             Linux.HWMON_I_INPUT;
                                             Linux.HWMON_I_INPUT ]))
    by (cbn; lia).
  split; [exact Hin|]. split; [reflexivity|]. split; [exact Hidx|].
  destruct (advertised_channels_in_cache Linux.HWMON_F_INPUT Linux.HWMON_PWM_MODE
              Linux.HWMON_PWM_INPUT Linux.HWMON_I_INPUT Linux.HWMON_C_INPUT
              nzxt_smart_device_v1_chip_info hwmon_in _ zero_device 2
              Hin eq_refl Hidx) as (_ & _ & _ & Hsome).
  exact Hsome.
Defined.
